(** * RPC Test Server client (examples/client_example.py)

    A shallow embedding of the client script and the properties of its
    operations.  The script is sequential Python: every operation sends one
    HTTP request with the [requests] library, prints to the console and
    returns a value or a sentinel.  The embedding threads an explicit world
    (wall clock and trace of observable events) through a state-and-exception
    monad; the remote server, which is not part of the repository, is a
    parameter of the development. *)

Set Warnings "-register-all".
From Stdlib Require Import ZArith NArith List String Ascii Bool Lia.
From Stdlib Require Import Floats.PrimFloat.
Import ListNotations.
Open Scope string_scope.
Open Scope list_scope.
Open Scope Z_scope.

(** ** Python values

    The values the script handles are the ones [json.loads] builds, together
    with the literals of the script itself: [None], booleans, integers,
    floats, strings, lists and dictionaries with string keys. *)

Inductive value : Type :=
| VNone
| VBool (b : bool)
| VInt (z : Z)
| VFloat (f : float)
| VStr (s : string)
| VList (l : list value)
| VDict (d : list (string * value)).

(** [bool(v)], as [if v:] and [not v] evaluate it. *)
Definition truthy (v : value) : bool :=
  match v with
  | VNone => false
  | VBool b => b
  | VInt z => negb (z =? 0)
  | VFloat f => negb (PrimFloat.eqb f 0%float)
  | VStr s => negb (String.eqb s EmptyString)
  | VList l => match l with [] => false | _ :: _ => true end
  | VDict d => match d with [] => false | _ :: _ => true end
  end.

(** [v == "literal"]: only a string compares equal to a string. *)
Definition eq_str (v : value) (s : string) : bool :=
  match v with
  | VStr s' => String.eqb s' s
  | _ => false
  end.

(** [v is None] *)
Definition is_None (v : value) : bool :=
  match v with
  | VNone => true
  | _ => false
  end.

(** Lookup in a dictionary; a parsed JSON object holds each key once. *)
Fixpoint lookup (key : string) (d : list (string * value)) : option value :=
  match d with
  | [] => None
  | (k, v) :: d' => if String.eqb k key then Some v else lookup key d'
  end.

(** ** Exceptions

    [requests] (2.27 and later) raises [requests.exceptions.JSONDecodeError]
    from [Response.json()]; it derives from [InvalidJSONError] and so from
    [RequestException], like the connection and timeout errors. *)

Inductive exn : Type :=
| RequestException (msg : string)
| JSONDecodeError
| AttributeError
| TypeError
| ValueError
| OverflowError
| SystemExit (code : Z).

(** [isinstance(e, requests.exceptions.RequestException)] *)
Definition is_RequestException (e : exn) : bool :=
  match e with
  | RequestException _ | JSONDecodeError => true
  | _ => false
  end.

(** ** Formatted strings

    An f-string is kept as its sequence of literal parts and interpolated
    values, so that no rendering of [str()] has to be fixed. *)

Inductive piece : Type :=
| Lit (s : string)
| Fmt (v : value)
| FmtInt (z : Z)
| FmtExn (e : exn)
| Fmt2f (v : value)
| FmtHeaders (h : list (string * string))
| Dumps (v : value).

Definition fstring : Type := list piece.

Definition nl : string := String (ascii_of_nat 10) EmptyString.

(** ['='*50] *)
Fixpoint str_mul (s : string) (n : nat) : string :=
  match n with
  | O => EmptyString
  | S n' => String.append s (str_mul s n')
  end.

(** ** HTTP *)

Inductive http_method : Type := GET | POST | DELETE.

Record request : Type := {
  req_method : http_method;
  req_url : fstring;
  req_json : option value;
  req_headers : list (string * string)
}.

(** A response; [body] is [None] when the text is not valid JSON. *)
Record Response : Type := {
  status_code : Z;
  headers : list (string * string);
  body : option value
}.

Inductive reply : Type :=
| NetworkError (msg : string)
| Answer (r : Response).

(** The remote side and the scheduler: what the n-th request of a run is
    answered, how many milliseconds it takes, and by how many milliseconds
    the n-th [time.sleep] overshoots. *)
Record Backend : Type := {
  answer : nat -> request -> reply;
  latency : nat -> N;
  oversleep : nat -> N
}.

(** ** World *)

Inductive event : Type :=
| Sent (r : request)
| Slept (secs : Z)
| Printed (line : fstring).

(** [clock] is the wall clock in milliseconds. *)
Record World : Type := {
  clock : Z;
  trace : list event
}.

Definition seconds (n : Z) : Z := n * 1000.

Definition is_Sent (e : event) : bool :=
  match e with Sent _ => true | _ => false end.

Definition is_Slept (e : event) : bool :=
  match e with Slept _ => true | _ => false end.

Definition is_Printed (e : event) : bool :=
  match e with Printed _ => true | _ => false end.

Definition requests_sent (t : list event) : nat := List.length (filter is_Sent t).

Definition naps_taken (t : list event) : nat := List.length (filter is_Slept t).

(** The trace without the console output. *)
Definition io (t : list event) : list event := filter (fun e => negb (is_Printed e)) t.

(** The console output alone. *)
Fixpoint stdout (t : list event) : list fstring :=
  match t with
  | [] => []
  | Printed l :: t' => l :: stdout t'
  | _ :: t' => stdout t'
  end.

(** ** The monad of the script: state, exceptions, and exhausted fuel *)

Inductive outcome (A : Type) : Type :=
| Ret (a : A)
| Raise (e : exn)
| OutOfFuel.

Arguments Ret {A} a.
Arguments Raise {A} e.
Arguments OutOfFuel {A}.

Definition M (A : Type) : Type := World -> outcome A * World.

Definition ret {A} (a : A) : M A := fun w => (Ret a, w).

Definition raise {A} (e : exn) : M A := fun w => (Raise e, w).

Definition bind {A B} (m : M A) (k : A -> M B) : M B :=
  fun w =>
    match m w with
    | (Ret a, w') => k a w'
    | (Raise e, w') => (Raise e, w')
    | (OutOfFuel, w') => (OutOfFuel, w')
    end.

Notation "x <- c1 ;; c2" := (bind c1 (fun x => c2))
  (at level 61, c1 at next level, right associativity).
Notation "c1 ;; c2" := (bind c1 (fun _ => c2))
  (at level 61, right associativity).

(** [try: body / except requests.exceptions.RequestException as e: handler] *)
Definition try_except {A} (body : M A) (handler : exn -> M A) : M A :=
  fun w =>
    match body w with
    | (Raise e, w') =>
        if is_RequestException e then handler e w' else (Raise e, w')
    | r => r
    end.

(** The exit status of the interpreter for an outcome of the top level: an
    uncaught exception prints a traceback and exits with status 1. *)
Definition exit_code {A} (o : outcome A) : option Z :=
  match o with
  | Ret _ => Some 0
  | Raise (SystemExit code) => Some code
  | Raise _ => Some 1
  | OutOfFuel => None
  end.

(** ** Primitives *)

Definition print (line : fstring) : M unit :=
  fun w => (Ret tt, {| clock := clock w; trace := trace w ++ [Printed line] |}).

(** [time.time()] *)
Definition time_time : M Z := fun w => (Ret (clock w), w).

(** [sys.exit(code)] *)
Definition sys_exit {A} (code : Z) : M A := raise (SystemExit code).

(** [response.json()] *)
Definition json (response : Response) : M value :=
  match body response with
  | Some v => ret v
  | None => raise JSONDecodeError
  end.

(** [obj.get(key, default)]; only a dictionary has the method. *)
Definition py_get (obj : value) (key : string) (default : value) : M value :=
  match obj with
  | VDict d =>
      match lookup key d with
      | Some v => ret v
      | None => ret default
      end
  | _ => raise AttributeError
  end.

(** An integer [float()] converts: its nearest double is finite. *)
Definition fits_double (z : Z) : bool := Z.abs z <? 2 ^ 1024 - 2 ^ 970.

(** [f"{v:.2f}"]: floats format, and integers and booleans as the floats
    they convert to; a string has no such format code and the other types
    no such format. *)
Definition format_2f (v : value) : M piece :=
  match v with
  | VFloat _ | VBool _ => ret (Fmt2f v)
  | VInt z => if fits_double z then ret (Fmt2f v) else raise OverflowError
  | VStr _ => raise ValueError
  | VNone | VList _ | VDict _ => raise TypeError
  end.

(** The one-character strings of a string. *)
Fixpoint chars (s : string) : list value :=
  match s with
  | EmptyString => []
  | String c s' => VStr (String c EmptyString) :: chars s'
  end.

(** The elements [for x in v] runs over. *)
Definition py_iter (v : value) : M (list value) :=
  match v with
  | VList l => ret l
  | VStr s => ret (chars s)
  | VDict d => ret (map (fun kv => VStr (fst kv)) d)
  | VNone | VBool _ | VInt _ | VFloat _ => raise TypeError
  end.

Fixpoint for_each {A} (l : list A) (body : A -> M unit) : M unit :=
  match l with
  | [] => ret tt
  | x :: l' => body x ;; for_each l' body
  end.

Section Client.

Variable backend : Backend.

(** One HTTP exchange: the request is recorded, the clock advances by the
    latency, and the reply is a response or a raised network error. *)
Definition send (req : request) : M Response :=
  fun w =>
    let n := requests_sent (trace w) in
    let w' := {| clock := clock w + Z.of_N (latency backend n);
                 trace := trace w ++ [Sent req] |} in
    match answer backend n req with
    | NetworkError msg => (Raise (RequestException msg), w')
    | Answer r => (Ret r, w')
    end.

Definition requests_get (url : fstring) : M Response :=
  send {| req_method := GET; req_url := url; req_json := None; req_headers := [] |}.

Definition requests_post (url : fstring) (payload : value)
    (hdrs : list (string * string)) : M Response :=
  send {| req_method := POST; req_url := url; req_json := Some payload;
          req_headers := hdrs |}.

Definition requests_delete (url : fstring) : M Response :=
  send {| req_method := DELETE; req_url := url; req_json := None; req_headers := [] |}.

(** [time.sleep(secs)] suspends for at least [secs] seconds. *)
Definition time_sleep (secs : Z) : M unit :=
  fun w =>
    (Ret tt,
     {| clock := clock w + seconds secs + Z.of_N (oversleep backend (naps_taken (trace w)));
        trace := trace w ++ [Slept secs] |}).

(** ** The script *)

Definition SERVER_URL : string := "http://localhost:8080".

(** [print_response(response, title)] *)
Definition print_response (response : Response) (title : fstring) : M unit :=
  print [Lit nl; Fmt (VStr (str_mul "=" 50))] ;;
  print title ;;
  print [Fmt (VStr (str_mul "=" 50))] ;;
  print [Lit "Status Code: "; FmtInt (status_code response)] ;;
  print [Lit "Headers: "; FmtHeaders (headers response)] ;;
  print [Lit "Body:"] ;;
  parsed <- json response ;;
  print [Dumps parsed].

Definition content_type_json : list (string * string) :=
  [("Content-Type", "application/json")].

Definition method_config (concurrency duration limit : Z) (enabled : bool) : value :=
  VDict [("concurrency", VInt concurrency);
         ("duration", VInt duration);
         ("limit", VInt limit);
         ("enabled", VBool enabled)].

(** The configuration [start_test] submits. *)
Definition full_test_config : value :=
  VDict [("remote_rpc_url", VStr "https://us.rpc.fluxbeam.xyz");
         ("rpc_apikey", VStr "YOUR_API_KEY_HERE");
         ("programs", VList [VStr "2wT8Yq49kHgDzXuPxZSaeLaH1qbmGXtEyPy64bL7aD3c"]);
         ("target_rpc_url", VStr "https://api.mainnet-beta.solana.com");
         ("global_config",
          VDict [("concurrency", VInt 5); ("duration", VInt 15); ("limit", VInt 0)]);
         ("methods",
          VDict [("getAccountInfo", method_config 10 20 50 true);
                 ("getMultipleAccounts", method_config 5 15 100 true);
                 ("getProgramAccounts", method_config 3 10 25 false)])].

(** The configuration [start_simple_test] submits. *)
Definition simple_test_config : value :=
  VDict [("target_rpc_url", VStr "https://api.mainnet-beta.solana.com");
         ("global_config", VDict [("concurrency", VInt 3); ("duration", VInt 10)])].

Definition network_error (e : exn) : fstring :=
  [Lit "❌ Network error: "; FmtExn e].

Definition start_test : M value :=
  print [Lit "🚀 Starting a new RPC test with method-specific configurations..."] ;;
  let test_config := full_test_config in
  try_except
    (response <- requests_post [Fmt (VStr SERVER_URL); Lit "/test"] test_config
                   content_type_json ;;
     if status_code response =? 200 then
       result <- json response ;;
       test_id <- py_get result "test_id" VNone ;;
       print [Lit "✅ Test started successfully!"] ;;
       print [Lit "📋 Test ID: "; Fmt test_id] ;;
       ret test_id
     else
       print [Lit "❌ Failed to start test: "; FmtInt (status_code response)] ;;
       print_response response [Lit "Error Response"] ;;
       ret VNone)
    (fun e => print (network_error e) ;; ret VNone).

Definition start_simple_test : M value :=
  print [Lit "🚀 Starting a simple RPC test with global defaults..."] ;;
  let test_config := simple_test_config in
  try_except
    (response <- requests_post [Fmt (VStr SERVER_URL); Lit "/test"] test_config
                   content_type_json ;;
     if status_code response =? 200 then
       result <- json response ;;
       test_id <- py_get result "test_id" VNone ;;
       print [Lit "✅ Simple test started successfully!"] ;;
       print [Lit "📋 Test ID: "; Fmt test_id] ;;
       ret test_id
     else
       print [Lit "❌ Failed to start simple test: "; FmtInt (status_code response)] ;;
       print_response response [Lit "Error Response"] ;;
       ret VNone)
    (fun e => print (network_error e) ;; ret VNone).

Definition test_url (test_id : value) : fstring :=
  [Fmt (VStr SERVER_URL); Lit "/test/"; Fmt test_id].

Definition get_test_status (test_id : value) : M value :=
  try_except
    (response <- requests_get (test_url test_id) ;;
     if status_code response =? 200 then
       result <- json response ;;
       status <- py_get result "status" (VStr "unknown") ;;
       print [Lit "📊 Test "; Fmt test_id; Lit " status: "; Fmt status] ;;
       ret status
     else
       print [Lit "❌ Failed to get test status: "; FmtInt (status_code response)] ;;
       ret VNone)
    (fun e => print (network_error e) ;; ret VNone).

Definition get_test_results (test_id : value) : M value :=
  try_except
    (response <- requests_get (test_url test_id) ;;
     if status_code response =? 200 then
       result <- json response ;;
       status <- py_get result "status" VNone ;;
       if eq_str status "completed" then
         print_response response [Lit "Test Results for "; Fmt test_id] ;;
         ret result
       else
         print [Lit "⏳ Test "; Fmt test_id; Lit " is still running..."] ;;
         ret VNone
     else
       print [Lit "❌ Failed to get test results: "; FmtInt (status_code response)] ;;
       ret VNone)
    (fun e => print (network_error e) ;; ret VNone).

Definition list_all_tests : M value :=
  try_except
    (response <- requests_get [Fmt (VStr SERVER_URL); Lit "/tests"] ;;
     if status_code response =? 200 then
       print_response response [Lit "All Tests"] ;;
       json response
     else
       print [Lit "❌ Failed to list tests: "; FmtInt (status_code response)] ;;
       ret VNone)
    (fun e => print (network_error e) ;; ret VNone).

Definition delete_test (test_id : value) : M bool :=
  try_except
    (response <- requests_delete (test_url test_id) ;;
     if status_code response =? 200 then
       print [Lit "✅ Test "; Fmt test_id; Lit " deleted successfully!"] ;;
       ret true
     else
       print [Lit "❌ Failed to delete test: "; FmtInt (status_code response)] ;;
       ret false)
    (fun e => print (network_error e) ;; ret false).

(** The [while] loop of [wait_for_test_completion].  [Some b] is a [return b]
    executed inside the loop, [None] is the loop left because its condition
    became false.  Each turn that goes on sleeps five seconds, so the turns
    are bounded and [fuel] counts them. *)
Fixpoint wait_loop (fuel : nat) (test_id : value) (start_time max_wait_time : Z)
    : M (option bool) :=
  match fuel with
  | O => fun w => (OutOfFuel, w)
  | S fuel' =>
      now <- time_time ;;
      if now - start_time <? seconds max_wait_time then
        status <- get_test_status test_id ;;
        if eq_str status "completed" then
          print [Lit "✅ Test "; Fmt test_id; Lit " completed!"] ;;
          ret (Some true)
        else if eq_str status "failed" then
          print [Lit "❌ Test "; Fmt test_id; Lit " failed!"] ;;
          ret (Some false)
        else if is_None status then
          print [Lit "❌ Could not get status for test "; Fmt test_id] ;;
          ret (Some false)
        else
          time_sleep 5 ;;
          wait_loop fuel' test_id start_time max_wait_time
      else
        ret None
  end.

(** Turns the loop can take for a budget of [max_wait_time] seconds: one per
    started span of five seconds, and the one that finds the time elapsed. *)
Definition poll_budget (max_wait_time : Z) : nat :=
  S (Z.to_nat ((max_wait_time + 4) / 5)).

Definition wait_for_test_completion (test_id : value) (max_wait_time : Z) : M bool :=
  print [Lit "⏳ Waiting for test "; Fmt test_id; Lit " to complete..."] ;;
  start_time <- time_time ;;
  returned <- wait_loop (poll_budget max_wait_time) test_id start_time max_wait_time ;;
  match returned with
  | Some b => ret b
  | None =>
      print [Lit "⏰ Timeout waiting for test "; Fmt test_id; Lit " to complete"] ;;
      ret false
  end.

(** [max_wait_time=300], the default [main] relies on. *)
Definition default_max_wait_time : Z := 300.

(** The block of [main] under [if overall:]. *)
Definition show_overall (overall : value) : M unit :=
  print [Lit (nl ++ "📊 Overall Results:")%string] ;;
  total_requests <- py_get overall "total_requests" (VInt 0) ;;
  print [Lit "   Total Requests: "; Fmt total_requests] ;;
  total_success <- py_get overall "total_success" (VInt 0) ;;
  print [Lit "   Total Success: "; Fmt total_success] ;;
  overall_rps <- py_get overall "overall_rps" (VInt 0) ;;
  shown <- format_2f overall_rps ;;
  print [Lit "   Overall RPS: "; shown] ;;
  overall_success_rate <- py_get overall "overall_success_rate" (VInt 0) ;;
  shown <- format_2f overall_success_rate ;;
  print [Lit "   Success Rate: "; shown; Lit "%"].

(** The body of [for result in method_results:] in [main]. *)
Definition show_method (result : value) : M unit :=
  method_name <- py_get result "method_name" (VStr "unknown") ;;
  print [Lit "   📈 "; Fmt method_name; Lit ":"] ;;
  total_requests <- py_get result "total_requests" (VInt 0) ;;
  print [Lit "      Requests: "; Fmt total_requests] ;;
  success_rate <- py_get result "success_rate" (VInt 0) ;;
  shown <- format_2f success_rate ;;
  print [Lit "      Success Rate: "; shown; Lit "%"] ;;
  requests_per_sec <- py_get result "requests_per_sec" (VInt 0) ;;
  shown <- format_2f requests_per_sec ;;
  print [Lit "      RPS: "; shown].

(** The block of [main] under [if results:]. *)
Definition show_results (results : value) : M unit :=
  print [Lit (nl ++ "🎉 Test completed successfully!")%string] ;;
  overall <- py_get results "overall" (VDict []) ;;
  (if truthy overall then show_overall overall else ret tt) ;;
  method_results <- py_get results "results" (VList []) ;;
  if truthy method_results then
    print [Lit (nl ++ "🔍 Method-Specific Results:")%string] ;;
    items <- py_iter method_results ;;
    for_each items show_method
  else ret tt.

Definition main : M unit :=
  print [Lit "🔧 RPC Test Server Client Example"] ;;
  print [Lit (str_mul "=" 50)] ;;
  try_except
    (response <- requests_get [Fmt (VStr SERVER_URL); Lit "/"] ;;
     (if negb (status_code response =? 200) then
        print [Lit "❌ Server is not responding properly: "; FmtInt (status_code response)] ;;
        sys_exit 1
      else ret tt) ;;
     print [Lit "✅ Server is running!"])
    (fun e =>
       print [Lit "❌ Cannot connect to server at "; Fmt (VStr SERVER_URL)] ;;
       print [Lit "   Make sure the server is running with: ./rpc_test server"] ;;
       sys_exit 1) ;;
  print [Lit (nl ++ "📋 Listing existing tests...")%string] ;;
  list_all_tests ;;
  test_id <- start_test ;;
  (if negb (truthy test_id) then
     print [Lit "❌ Failed to start test, exiting..."] ;;
     sys_exit 1
   else ret tt) ;;
  completed <- wait_for_test_completion test_id default_max_wait_time ;;
  (if completed then
     results <- get_test_results test_id ;;
     if truthy results then show_results results else ret tt
   else ret tt) ;;
  print [Lit (nl ++ "📋 Listing tests after completion...")%string] ;;
  list_all_tests ;;
  print [Lit (nl ++ "🧹 Cleaning up test ")%string; Fmt test_id; Lit "..."] ;;
  delete_test test_id ;;
  print [Lit (nl ++ "✅ Example completed successfully!")%string].

End Client.

(** ** Vocabulary of the properties *)

Definition get_request (url : fstring) : request :=
  {| req_method := GET; req_url := url; req_json := None; req_headers := [] |}.

Definition delete_request (url : fstring) : request :=
  {| req_method := DELETE; req_url := url; req_json := None; req_headers := [] |}.

Definition post_test_request (config : value) : request :=
  {| req_method := POST; req_url := [Fmt (VStr SERVER_URL); Lit "/test"];
     req_json := Some config; req_headers := content_type_json |}.

(** The reply the next request of a world will get. *)
Definition next_reply (backend : Backend) (w : World) (req : request) : reply :=
  answer backend (requests_sent (trace w)) req.

(** A computation that never runs out of fuel. *)
Definition halts {A} (m : M A) : Prop := forall w, fst (m w) <> OutOfFuel.

(** The last line on the console. *)
Definition last_line (w : World) : option fstring :=
  match rev (stdout (trace w)) with
  | [] => None
  | l :: _ => Some l
  end.

(** A status on which the polling loop goes on. *)
Definition nonterminal (status : value) : bool :=
  negb (eq_str status "completed") && negb (eq_str status "failed")
  && negb (is_None status).

(** The poll of a world reports a non-terminal status. *)
Definition poll_goes_on (backend : Backend) (test_id : value) (w : World) : Prop :=
  exists status,
    fst (get_test_status backend test_id w) = Ret status /\ nonterminal status = true.

(** The world a turn of the loop that goes on leaves: the poll, then the
    sleep of five seconds. *)
Definition after_turn (backend : Backend) (test_id : value) (w : World) : World :=
  snd (time_sleep backend 5 (snd (get_test_status backend test_id w))).

(** The world in which the n-th poll of a wait starts (counting from 0) when
    the polls before it went on. *)
Fixpoint poll_world (backend : Backend) (test_id : value) (n : nat) (w : World) : World :=
  match n with
  | O => w
  | S n' => poll_world backend test_id n' (after_turn backend test_id w)
  end.

(** Polls that never block longer than asked: answers arrive at once and
    sleeps end on time. *)
Definition instantaneous (backend : Backend) : Prop :=
  forall n, latency backend n = 0%N /\ oversleep backend n = 0%N.

Definition still_running (test_id : value) : fstring :=
  [Lit "⏳ Test "; Fmt test_id; Lit " is still running..."].

Definition results_failed (code : Z) : fstring :=
  [Lit "❌ Failed to get test results: "; FmtInt code].

Definition waiting_line (test_id : value) : fstring :=
  [Lit "⏳ Waiting for test "; Fmt test_id; Lit " to complete..."].

Definition timeout_line (test_id : value) : fstring :=
  [Lit "⏰ Timeout waiting for test "; Fmt test_id; Lit " to complete"].

(** The line the loop prints when it returns on a terminal status. *)
Definition verdict_line (test_id status : value) : fstring :=
  if eq_str status "completed" then [Lit "✅ Test "; Fmt test_id; Lit " completed!"]
  else if eq_str status "failed" then [Lit "❌ Test "; Fmt test_id; Lit " failed!"]
  else [Lit "❌ Could not get status for test "; Fmt test_id].

(** [n] turns of the loop that went on: a poll and a sleep of five seconds
    each. *)
Fixpoint turns (req : request) (n : nat) : list event :=
  match n with
  | O => []
  | S n' => Sent req :: Slept 5 :: turns req n'
  end.

(** *** The interface [main] relies on *)

(** A value [:.2f] formats. *)
Definition numeric (v : value) : bool :=
  match v with
  | VInt z => fits_double z
  | VFloat _ | VBool _ => true
  | _ => false
  end.

(** The field is a number where it is present. *)
Definition rate_ok (key : string) (d : list (string * value)) : bool :=
  match lookup key d with
  | Some v => numeric v
  | None => true
  end.

(** An [overall] summary: empty, or an object whose rates are numbers. *)
Definition overall_shape (overall : value) : bool :=
  negb (truthy overall)
  || match overall with
     | VDict d => rate_ok "overall_rps" d && rate_ok "overall_success_rate" d
     | _ => false
     end.

(** A record of [results]: an object whose rates are numbers. *)
Definition method_shape (result : value) : bool :=
  match result with
  | VDict d => rate_ok "success_rate" d && rate_ok "requests_per_sec" d
  | _ => false
  end.

(** The [results] of a body: empty, or a list of method records. *)
Definition results_shape (method_results : value) : bool :=
  negb (truthy method_results)
  || match method_results with
     | VList l => forallb method_shape l
     | _ => false
     end.

Definition field (key : string) (d : list (string * value)) (default : value) : value :=
  match lookup key d with
  | Some v => v
  | None => default
  end.

(** A reply that keeps to the interface: the JSON body of a 200 answer is an
    object, and when it reports a completed test its summary and its method
    records have the documented shape. *)
Definition conforming (r : reply) : bool :=
  match r with
  | NetworkError _ => true
  | Answer resp =>
      if status_code resp =? 200 then
        match body resp with
        | None => true
        | Some (VDict d) =>
            if eq_str (field "status" d VNone) "completed" then
              overall_shape (field "overall" d (VDict []))
              && results_shape (field "results" d (VList []))
            else true
        | Some _ => false
        end
      else true
  end.

(** The requests that address a test: [POST /test] and the requests on
    [/test/{id}]. *)
Definition about_a_test (req : request) : bool :=
  match req_url req with
  | [Fmt _; Lit path] => String.eqb path "/test"
  | [Fmt _; Lit path; Fmt _] => String.eqb path "/test/"
  | _ => false
  end.

Definition well_behaved (backend : Backend) : Prop :=
  forall n req, about_a_test req = true -> conforming (answer backend n req) = true.

Definition health_request : request := get_request [Fmt (VStr SERVER_URL); Lit "/"].

Definition list_request : request := get_request [Fmt (VStr SERVER_URL); Lit "/tests"].

(** The health check of [main] passes: the answer to [GET /] is a 200. *)
Definition healthy (backend : Backend) (w : World) : bool :=
  match next_reply backend w health_request with
  | Answer r => status_code r =? 200
  | NetworkError _ => false
  end.

(** The world of [main] when it calls [start_test]: after the banner, the
    health check and the first listing. *)
Definition ready (backend : Backend) (w : World) : World :=
  snd ((print [Lit "🔧 RPC Test Server Client Example"] ;;
        print [Lit (str_mul "=" 50)] ;;
        requests_get backend [Fmt (VStr SERVER_URL); Lit "/"] ;;
        print [Lit "✅ Server is running!"] ;;
        print [Lit (nl ++ "📋 Listing existing tests...")%string] ;;
        list_all_tests backend) w).

Definition completed_line : fstring :=
  [Lit (nl ++ "✅ Example completed successfully!")%string].

(** [n] polls with a sleep of five seconds between successive ones. *)
Definition polls (req : request) (n : nat) : list event :=
  match n with
  | O => []
  | S n' => turns req n' ++ [Sent req]
  end.

(** ** Scenarios *)

Definition ok (v : value) : reply :=
  Answer {| status_code := 200; headers := []; body := Some v |}.

Definition status_body (s : string) : value := VDict [("status", VStr s)].

(** A backend answering the requests of a run from a list, then [rest]. *)
Definition scripted (answers : list reply) (rest : reply) : Backend :=
  {| answer := fun n _ => nth n answers rest;
     latency := fun _ => 0%N;
     oversleep := fun _ => 0%N |}.

Definition boot : World := {| clock := 0; trace := [] |}.

Definition answered (code : Z) : reply :=
  Answer {| status_code := code; headers := []; body := None |}.

(** Every poll finds the test running. *)
Definition always_running : Backend := scripted [] (ok (status_body "running")).

(** Every request is answered [200 {test_id: "abc"}]. *)
Definition echo_abc : Backend := scripted [] (ok (VDict [("test_id", VStr "abc")])).

(** Every request is answered [500] with a body that is not JSON. *)
Definition refusing : Backend := scripted [] (answered 500).

(** No request gets through. *)
Definition unreachable : Backend := scripted [] (NetworkError "connection refused").

(** The test is running at the first poll and completed at the second. *)
Definition completing : Backend :=
  scripted [ok (status_body "running")] (ok (status_body "completed")).

(** Every request is answered [200 {}]. *)
Definition no_status : Backend := scripted [] (ok (VDict [])).

(** The health check, the listing and the creation succeed; the status
    request is answered [200 null]. *)
Definition null_status : Backend :=
  scripted [ok VNone; ok (VList []); ok (VDict [("test_id", VStr "abc")])] (ok VNone).

Definition demo_result : value :=
  VDict [("status", VStr "completed");
         ("overall", VDict [("total_requests", VInt 40); ("total_success", VInt 39);
                            ("overall_rps", VFloat 2.5%float);
                            ("overall_success_rate", VFloat 97.5%float)]);
         ("results", VList [VDict [("method_name", VStr "getAccountInfo");
                                   ("total_requests", VInt 40);
                                   ("success_rate", VFloat 97.5%float);
                                   ("requests_per_sec", VFloat 2.5%float)]])].

(** A server that keeps to the interface: it creates the test ["abc"],
    reports it completed, lists no test and deletes on request. *)
Definition demo_server : Backend :=
  {| answer := fun _ req =>
       match req_method req with
       | POST => ok (VDict [("test_id", VStr "abc")])
       | DELETE => ok (VDict [])
       | GET => if about_a_test req then ok demo_result else ok (VList [])
       end;
     latency := fun _ => 0%N;
     oversleep := fun _ => 0%N |}.

(** The health check and the creation succeed; the first listing is refused
    and every later request fails at the network level. *)
Definition flaky_server : Backend :=
  scripted [answered 200; answered 500; ok (VDict [("test_id", VStr "abc")])]
    (NetworkError "connection reset").

(** The configuration of the scenario of the specification. *)
Definition scenario_config : value :=
  VDict [("target_rpc_url", VStr "https://x");
         ("global_config", VDict [("concurrency", VInt 3); ("duration", VInt 10)])].

(** ** Vocabulary of the further properties *)

Definition rule : string := str_mul "=" 50.

(** The lines [print_response] prints before the body. *)
Definition response_header (response : Response) (title : fstring) : list fstring :=
  [[Lit nl; Fmt (VStr rule)];
   title;
   [Fmt (VStr rule)];
   [Lit "Status Code: "; FmtInt (status_code response)];
   [Lit "Headers: "; FmtHeaders (headers response)];
   [Lit "Body:"]].

Definition list_failed (code : Z) : fstring :=
  [Lit "❌ Failed to list tests: "; FmtInt code].

Definition test_id_line (test_id : value) : fstring :=
  [Lit "📋 Test ID: "; Fmt test_id].

Definition no_status_line (test_id : value) : fstring :=
  [Lit "❌ Could not get status for test "; Fmt test_id].

(** [isinstance(v, dict)] *)
Definition is_dict (v : value) : bool :=
  match v with
  | VDict _ => true
  | _ => false
  end.

(** The polls a wait of [max_wait_time] seconds can afford:
    [ceil(max_wait_time / 5)]. *)
Definition max_polls (max_wait_time : Z) : nat := Z.to_nat ((max_wait_time + 4) / 5).

(** A computation that sends at most [n] requests. *)
Definition sends_at_most {A} (n : nat) (m : M A) : Prop :=
  forall w, (requests_sent (trace (snd (m w))) <= requests_sent (trace w) + n)%nat.

(** A computation whose only [SystemExit] is [sys.exit(1)]. *)
Definition raises_plainly {A} (m : M A) : Prop :=
  forall w,
    match fst (m w) with
    | Raise (SystemExit code) => code = 1
    | _ => True
    end.

Definition no_handle_line : fstring := [Lit "❌ Failed to start test, exiting..."].

Definition results_line : fstring :=
  [Lit (nl ++ "🎉 Test completed successfully!")%string].

(** The lines [main] prints for an [overall] summary before its rates. *)
Definition overall_counts (d : list (string * value)) : list fstring :=
  [[Lit (nl ++ "📊 Overall Results:")%string];
   [Lit "   Total Requests: "; Fmt (field "total_requests" d (VInt 0))];
   [Lit "   Total Success: "; Fmt (field "total_success" d (VInt 0))]].

(** The lines [main] prints for a method record without any of its keys. *)
Definition method_defaults : list fstring :=
  [[Lit "   📈 "; Fmt (VStr "unknown"); Lit ":"];
   [Lit "      Requests: "; Fmt (VInt 0)];
   [Lit "      Success Rate: "; Fmt2f (VInt 0); Lit "%"];
   [Lit "      RPS: "; Fmt2f (VInt 0)]].

(** The requests of a run of [main] at most: the health check, two listings,
    the creation, the polls of the default wait, the results and the
    deletion. *)
Definition main_requests : nat := 6 + max_polls default_max_wait_time.

(** Every request is answered [200] with a body that is not JSON. *)
Definition babbling : Backend :=
  scripted [] (answered 200).

(** Every request is answered [200 []]. *)
Definition listing_nothing : Backend := scripted [] (ok (VList [])).

(** Every request is answered [200 {"status": null}]. *)
Definition null_status_field : Backend :=
  scripted [] (ok (VDict [("status", VNone)])).

(** Every request is answered [200 "busy"], a JSON string. *)
Definition busy : Backend := scripted [] (ok (VStr "busy")).

(** The health check and the listing pass; the creation is answered
    [200 {}]. *)
Definition forgetful : Backend :=
  scripted [answered 200; ok (VList [])] (ok (VDict [])).

(** * Properties *)

(** ** Traces *)

Lemma io_app (t u : list event) : io (t ++ u) = io t ++ io u.
Proof. unfold io. apply filter_app. Qed.

Lemma stdout_app (t u : list event) : stdout (t ++ u) = stdout t ++ stdout u.
Proof.
  induction t as [|e t IH]; [reflexivity|].
  destruct e; cbn; rewrite IH; reflexivity.
Qed.

Lemma requests_sent_app (t u : list event) :
  requests_sent (t ++ u) = (requests_sent t + requests_sent u)%nat.
Proof. unfold requests_sent. rewrite filter_app. apply length_app. Qed.

Lemma naps_taken_app (t u : list event) :
  naps_taken (t ++ u) = (naps_taken t + naps_taken u)%nat.
Proof. unfold naps_taken. rewrite filter_app. apply length_app. Qed.

Lemma io_printed (t : list event) (l : fstring) : io (t ++ [Printed l]) = io t.
Proof. rewrite io_app. cbn. apply app_nil_r. Qed.

Lemma io_sent (t : list event) (r : request) : io (t ++ [Sent r]) = io t ++ [Sent r].
Proof. rewrite io_app. reflexivity. Qed.

Lemma io_slept (t : list event) (s : Z) : io (t ++ [Slept s]) = io t ++ [Slept s].
Proof. rewrite io_app. reflexivity. Qed.

Lemma stdout_printed (t : list event) (l : fstring) :
  stdout (t ++ [Printed l]) = stdout t ++ [l].
Proof. rewrite stdout_app. reflexivity. Qed.

Lemma stdout_sent (t : list event) (r : request) : stdout (t ++ [Sent r]) = stdout t.
Proof. rewrite stdout_app. cbn. apply app_nil_r. Qed.

Lemma requests_sent_printed (t : list event) (l : fstring) :
  requests_sent (t ++ [Printed l]) = requests_sent t.
Proof. rewrite requests_sent_app. cbn. lia. Qed.

Lemma requests_sent_sent (t : list event) (r : request) :
  requests_sent (t ++ [Sent r]) = S (requests_sent t).
Proof. rewrite requests_sent_app. cbn. lia. Qed.

Lemma requests_sent_slept (t : list event) (s : Z) :
  requests_sent (t ++ [Slept s]) = requests_sent t.
Proof. rewrite requests_sent_app. cbn. lia. Qed.

Lemma naps_taken_printed (t : list event) (l : fstring) :
  naps_taken (t ++ [Printed l]) = naps_taken t.
Proof. rewrite naps_taken_app. cbn. lia. Qed.

Lemma naps_taken_sent (t : list event) (r : request) :
  naps_taken (t ++ [Sent r]) = naps_taken t.
Proof. rewrite naps_taken_app. cbn. lia. Qed.

Lemma naps_taken_slept (t : list event) (s : Z) :
  naps_taken (t ++ [Slept s]) = S (naps_taken t).
Proof. rewrite naps_taken_app. cbn. lia. Qed.

Lemma last_line_printed (c : Z) (t : list event) (l : fstring) :
  last_line {| clock := c; trace := t ++ [Printed l] |} = Some l.
Proof. unfold last_line. cbn. rewrite stdout_printed, rev_unit. reflexivity. Qed.

Create Rewrite HintDb trace.

#[local] Hint Rewrite io_printed io_sent io_slept stdout_printed stdout_sent
  requests_sent_printed requests_sent_sent requests_sent_slept
  naps_taken_printed naps_taken_sent naps_taken_slept last_line_printed : trace.

(** Unfold the operations down to the world they build. *)
Ltac run :=
  unfold get_test_status, get_test_results, delete_test, list_all_tests, start_test,
    start_simple_test, print_response, requests_get, requests_post, requests_delete,
    json, py_get, try_except, bind, send, print, ret, raise, next_reply,
    get_request, delete_request, post_test_request in *;
  cbn [fst snd is_RequestException clock trace] in *.

(** Split on what the backend answered and on what the branches test. *)
Ltac cases :=
  repeat (match goal with
          | |- context [answer ?b ?n ?r] => destruct (answer b n r) as [?|?]
          | |- context [?c =? 200] => destruct (c =? 200) eqn:?
          | |- context [body ?r] => destruct (body r) as [?|]
          | |- context [lookup ?k ?d] => destruct (lookup k d) as [?|]
          | |- context [eq_str ?a ?b] => destruct (eq_str a b) eqn:?
          | |- context [match ?v with
                        | VNone => _ | VBool _ => _ | VInt _ => _ | VFloat _ => _
                        | VStr _ => _ | VList _ => _ | VDict _ => _
                        end] => is_var v; destruct v
          end;
          cbn [fst snd is_RequestException clock trace]).

Section Properties.

Variable backend : Backend.

(** *** Sequencing *)

Lemma bind_ret {A B} (m : M A) (k : A -> M B) (w : World) (a : A) :
  fst (m w) = Ret a -> bind m k w = k a (snd (m w)).
Proof. unfold bind. destruct (m w) as [o w']. cbn. now intros ->. Qed.

Lemma bind_raise {A B} (m : M A) (k : A -> M B) (w : World) (e : exn) :
  fst (m w) = Raise e -> bind m k w = (Raise e, snd (m w)).
Proof. unfold bind. destruct (m w) as [o w']. cbn. now intros ->. Qed.

(** *** One request per operation *)

Lemma get_test_status_io (test_id : value) (w : World) :
  io (trace (snd (get_test_status backend test_id w)))
  = io (trace w) ++ [Sent (get_request (test_url test_id))].
Proof. run. cases; autorewrite with trace; reflexivity. Qed.

Lemma get_test_results_io (test_id : value) (w : World) :
  io (trace (snd (get_test_results backend test_id w)))
  = io (trace w) ++ [Sent (get_request (test_url test_id))].
Proof. run. cases; autorewrite with trace; reflexivity. Qed.

Lemma delete_test_io (test_id : value) (w : World) :
  io (trace (snd (delete_test backend test_id w)))
  = io (trace w) ++ [Sent (delete_request (test_url test_id))].
Proof. run. cases; autorewrite with trace; reflexivity. Qed.

Lemma list_all_tests_io (w : World) :
  io (trace (snd (list_all_tests backend w)))
  = io (trace w) ++ [Sent (get_request [Fmt (VStr SERVER_URL); Lit "/tests"])].
Proof. run. cases; autorewrite with trace; reflexivity. Qed.

Lemma start_test_io (w : World) :
  io (trace (snd (start_test backend w)))
  = io (trace w) ++ [Sent (post_test_request full_test_config)].
Proof. run. autorewrite with trace. cases; autorewrite with trace; reflexivity. Qed.

Lemma start_simple_test_io (w : World) :
  io (trace (snd (start_simple_test backend w)))
  = io (trace w) ++ [Sent (post_test_request simple_test_config)].
Proof. run. autorewrite with trace. cases; autorewrite with trace; reflexivity. Qed.

(** *** Values *)

Lemma eq_str_true (v : value) (s : string) : eq_str v s = true -> v = VStr s.
Proof.
  destruct v; cbn; try discriminate.
  intros H. apply String.eqb_eq in H. now subst.
Qed.

(** *** get_test_status *)


(** *** delete_test *)

(** C5: [delete_test] returns [True] exactly when the backend answers HTTP
    200, [False] on every other status code and on every network error, and
    it never raises. *)
Theorem delete_test_true_iff_200 (test_id : value) (w : World) :
  (fst (delete_test backend test_id w) = Ret true <->
     exists r, next_reply backend w (delete_request (test_url test_id)) = Answer r
               /\ status_code r = 200)
  /\ (fst (delete_test backend test_id w) = Ret false <->
        (exists r, next_reply backend w (delete_request (test_url test_id)) = Answer r
                   /\ status_code r <> 200)
        \/ (exists msg,
              next_reply backend w (delete_request (test_url test_id)) = NetworkError msg))
  /\ (exists b, fst (delete_test backend test_id w) = Ret b).
Proof.
  run.
  destruct (answer backend _ _) as [msg|r] eqn:Ha; cbn [fst snd is_RequestException].
  - repeat split.
    + discriminate.
    + intros [r [Hr _]]. discriminate.
    + right. now exists msg.
    + now exists false.
  - destruct (Z.eqb_spec (status_code r) 200) as [Hc|Hc]; cbn [fst snd].
    + repeat split.
      * intros _. exists r. now split.
      * discriminate.
      * intros [[r' [Hr Hn]]|[msg Hm]]; [|discriminate].
        injection Hr as <-. contradiction.
      * now exists true.
    + repeat split.
      * discriminate.
      * intros [r' [Hr Hn]]. injection Hr as <-. contradiction.
      * intros _. left. exists r. now split.
      * now exists false.
Qed.

(** *** start_test *)


(** *** start_simple_test *)


(** *** get_test_results *)

(** C3: [get_test_results] returns the full JSON body exactly when the
    backend answers HTTP 200 with a [status] field equal to ["completed"].
    With any other reported status it returns [None] and says that the test
    is still running, which tells the case apart from the errors: on another
    status code and on a network error it returns [None] as well, with the
    message of the failure. *)
Theorem get_test_results_completed_only (test_id : value) (w : World) :
  (forall v, v <> VNone ->
     (fst (get_test_results backend test_id w) = Ret v <->
      exists r d,
        next_reply backend w (get_request (test_url test_id)) = Answer r
        /\ status_code r = 200 /\ body r = Some (VDict d) /\ v = VDict d
        /\ lookup "status" d = Some (VStr "completed")))
  /\ (forall r d,
       next_reply backend w (get_request (test_url test_id)) = Answer r ->
       status_code r = 200 -> body r = Some (VDict d) ->
       lookup "status" d <> Some (VStr "completed") ->
       fst (get_test_results backend test_id w) = Ret VNone
       /\ last_line (snd (get_test_results backend test_id w))
          = Some (still_running test_id))
  /\ (forall r,
       next_reply backend w (get_request (test_url test_id)) = Answer r ->
       status_code r <> 200 ->
       fst (get_test_results backend test_id w) = Ret VNone
       /\ last_line (snd (get_test_results backend test_id w))
          = Some (results_failed (status_code r)))
  /\ (forall msg,
       next_reply backend w (get_request (test_url test_id)) = NetworkError msg ->
       fst (get_test_results backend test_id w) = Ret VNone
       /\ last_line (snd (get_test_results backend test_id w))
          = Some (network_error (RequestException msg))).
Proof.
  repeat apply conj.
  - intros v Hv. split.
    + run. destruct (answer backend _ _) as [msg|r] eqn:Ha;
        cbn [fst snd is_RequestException]; [congruence|].
      destruct (Z.eqb_spec (status_code r) 200) as [Hc|Hc]; cbn [fst snd]; [|congruence].
      destruct (body r) as [b|] eqn:Hb; cbn [fst snd is_RequestException]; [|congruence].
      destruct b; cbn [fst snd is_RequestException]; try congruence.
      destruct (lookup "status" d) as [s|] eqn:Hl; cbn [fst snd eq_str];
        [|congruence].
      destruct (eq_str s "completed") eqn:Hs; cbn [fst snd]; [|congruence].
      apply eq_str_true in Hs. subst s. intros H. injection H as <-.
      exists r, d. repeat split; assumption.
    + intros [r [d [Ha [Hc [Hb [-> Hl]]]]]]. run.
      rewrite Ha, Hc. cbn. rewrite Hb, Hl. reflexivity.
  - intros r d Ha Hc Hb Hl. run. rewrite Ha, Hc. cbn. rewrite Hb.
    destruct (lookup "status" d) as [s|] eqn:Hs; cbn [fst snd eq_str].
    + destruct (eq_str s "completed") eqn:He; cbn [fst snd].
      * apply eq_str_true in He. congruence.
      * split; [reflexivity|]. apply last_line_printed.
    + split; [reflexivity|]. apply last_line_printed.
  - intros r Ha Hc. apply Z.eqb_neq in Hc. run. rewrite Ha, Hc. cbn.
    split; [reflexivity|]. apply last_line_printed.
  - intros msg Ha. run. rewrite Ha. cbn.
    split; [reflexivity|]. apply last_line_printed.
Qed.

(** *** Network failures *)

(** C7: every operation sends exactly one request, whatever the reply (there
    is no retry), and when that request fails at the network level the
    failure is caught inside the operation, which returns its sentinel
    ([None], or [False] for [delete_test]) instead of raising. *)
Theorem network_failures_absorbed (test_id : value) (w : World) :
  (io (trace (snd (start_test backend w)))
     = io (trace w) ++ [Sent (post_test_request full_test_config)]
   /\ io (trace (snd (start_simple_test backend w)))
     = io (trace w) ++ [Sent (post_test_request simple_test_config)]
   /\ io (trace (snd (get_test_status backend test_id w)))
     = io (trace w) ++ [Sent (get_request (test_url test_id))]
   /\ io (trace (snd (get_test_results backend test_id w)))
     = io (trace w) ++ [Sent (get_request (test_url test_id))]
   /\ io (trace (snd (list_all_tests backend w)))
     = io (trace w) ++ [Sent (get_request [Fmt (VStr SERVER_URL); Lit "/tests"])]
   /\ io (trace (snd (delete_test backend test_id w)))
     = io (trace w) ++ [Sent (delete_request (test_url test_id))])
  /\ (forall msg,
       (forall req, next_reply backend w req = NetworkError msg) ->
       fst (start_test backend w) = Ret VNone
       /\ fst (start_simple_test backend w) = Ret VNone
       /\ fst (get_test_status backend test_id w) = Ret VNone
       /\ fst (get_test_results backend test_id w) = Ret VNone
       /\ fst (list_all_tests backend w) = Ret VNone
       /\ fst (delete_test backend test_id w) = Ret false).
Proof.
  split.
  - repeat apply conj.
    + apply start_test_io.
    + apply start_simple_test_io.
    + apply get_test_status_io.
    + apply get_test_results_io.
    + apply list_all_tests_io.
    + apply delete_test_io.
  - intros msg Ha. repeat apply conj; run; autorewrite with trace;
      rewrite Ha; reflexivity.
Qed.

(** *** The polling loop *)

Lemma get_test_status_clock (test_id : value) (w : World) :
  clock (snd (get_test_status backend test_id w))
  = clock w + Z.of_N (latency backend (requests_sent (trace w))).
Proof. run. cases; reflexivity. Qed.

Lemma get_test_status_naps_taken (test_id : value) (w : World) :
  naps_taken (trace (snd (get_test_status backend test_id w))) = naps_taken (trace w).
Proof. run. cases; autorewrite with trace; reflexivity. Qed.

Lemma after_turn_clock (test_id : value) (w : World) :
  clock (after_turn backend test_id w)
  = clock w + Z.of_N (latency backend (requests_sent (trace w))) + seconds 5
    + Z.of_N (oversleep backend (naps_taken (trace w))).
Proof.
  unfold after_turn, time_sleep. cbn [snd clock].
  rewrite get_test_status_clock, get_test_status_naps_taken. reflexivity.
Qed.

Lemma after_turn_later (test_id : value) (w : World) :
  clock w + seconds 5 <= clock (after_turn backend test_id w).
Proof. rewrite after_turn_clock. lia. Qed.

Lemma after_turn_io (test_id : value) (w : World) :
  io (trace (after_turn backend test_id w))
  = io (trace w) ++ turns (get_request (test_url test_id)) 1.
Proof.
  unfold after_turn, time_sleep. cbn [snd trace turns].
  rewrite io_slept, get_test_status_io, <- app_assoc. reflexivity.
Qed.

Lemma poll_world_clock (test_id : value) (n : nat) (w : World) :
  clock w + seconds 5 * Z.of_nat n <= clock (poll_world backend test_id n w).
Proof.
  revert w. induction n as [|n IH]; intros w; cbn [poll_world]; [lia|].
  specialize (IH (after_turn backend test_id w)).
  pose proof (after_turn_later test_id w). lia.
Qed.

Lemma poll_world_io (test_id : value) (n : nat) (w : World) :
  io (trace (poll_world backend test_id n w))
  = io (trace w) ++ turns (get_request (test_url test_id)) n.
Proof.
  revert w. induction n as [|n IH]; intros w; cbn [poll_world].
  - cbn. symmetry. apply app_nil_r.
  - rewrite IH, after_turn_io, <- app_assoc. reflexivity.
Qed.

(** The loop leaves when the time has elapsed. *)
Lemma wait_loop_elapsed (fuel : nat) (test_id : value) (start_time max_wait_time : Z)
    (w : World) :
  seconds max_wait_time <= clock w - start_time ->
  wait_loop backend (S fuel) test_id start_time max_wait_time w = (Ret None, w).
Proof.
  intros H. cbn [wait_loop]. unfold bind at 1, time_time.
  apply Z.ltb_ge in H. rewrite H. reflexivity.
Qed.

(** The loop returns on a terminal status, right after the poll. *)
Lemma wait_loop_terminal (fuel : nat) (test_id : value) (start_time max_wait_time : Z)
    (w : World) (status : value) :
  clock w - start_time < seconds max_wait_time ->
  fst (get_test_status backend test_id w) = Ret status ->
  nonterminal status = false ->
  wait_loop backend (S fuel) test_id start_time max_wait_time w
  = (Ret (Some (eq_str status "completed")),
     snd (print (verdict_line test_id status) (snd (get_test_status backend test_id w)))).
Proof.
  intros Ht Hs Hn. cbn [wait_loop]. unfold bind at 1, time_time.
  apply Z.ltb_lt in Ht. rewrite Ht. unfold bind at 1.
  destruct (get_test_status backend test_id w) as [o w1]. cbn [fst snd] in *. subst o.
  unfold nonterminal, verdict_line in *.
  destruct (eq_str status "completed"); [reflexivity|].
  destruct (eq_str status "failed"); [reflexivity|].
  destruct (is_None status); [reflexivity|discriminate].
Qed.

(** The loop sleeps and polls again on any other status. *)
Lemma wait_loop_goes_on (fuel : nat) (test_id : value) (start_time max_wait_time : Z)
    (w : World) :
  clock w - start_time < seconds max_wait_time ->
  poll_goes_on backend test_id w ->
  wait_loop backend (S fuel) test_id start_time max_wait_time w
  = wait_loop backend fuel test_id start_time max_wait_time (after_turn backend test_id w).
Proof.
  intros Ht [status [Hs Hn]]. cbn [wait_loop]. unfold bind at 1, time_time.
  apply Z.ltb_lt in Ht. rewrite Ht. unfold bind at 1. unfold after_turn.
  destruct (get_test_status backend test_id w) as [o w1]. cbn [fst snd] in *. subst o.
  unfold nonterminal in Hn.
  destruct (eq_str status "completed"); [discriminate|].
  destruct (eq_str status "failed"); [discriminate|].
  destruct (is_None status); [discriminate|].
  reflexivity.
Qed.

(** An exception of the poll leaves the loop. *)
Lemma wait_loop_raises (fuel : nat) (test_id : value) (start_time max_wait_time : Z)
    (w : World) (e : exn) :
  clock w - start_time < seconds max_wait_time ->
  fst (get_test_status backend test_id w) = Raise e ->
  wait_loop backend (S fuel) test_id start_time max_wait_time w
  = (Raise e, snd (get_test_status backend test_id w)).
Proof.
  intros Ht Hs. cbn [wait_loop]. unfold bind at 1, time_time.
  apply Z.ltb_lt in Ht. rewrite Ht. unfold bind at 1.
  destruct (get_test_status backend test_id w) as [o w1]. cbn [fst snd] in *. subst o.
  reflexivity.
Qed.

Lemma wait_loop_first_terminal (test_id : value) (start_time max_wait_time : Z)
    (status : value) (n : nat) :
  forall (fuel : nat) (w : World),
    (n < fuel)%nat ->
    (forall i, (i < n)%nat -> poll_goes_on backend test_id (poll_world backend test_id i w)) ->
    clock (poll_world backend test_id n w) - start_time < seconds max_wait_time ->
    fst (get_test_status backend test_id (poll_world backend test_id n w)) = Ret status ->
    nonterminal status = false ->
    wait_loop backend fuel test_id start_time max_wait_time w
    = (Ret (Some (eq_str status "completed")),
       snd (print (verdict_line test_id status)
              (snd (get_test_status backend test_id (poll_world backend test_id n w))))).
Proof.
  induction n as [|n IH]; intros fuel w Hf Hgo Ht Hs Hn.
  - destruct fuel as [|fuel]; [lia|]. now apply wait_loop_terminal.
  - destruct fuel as [|fuel]; [lia|].
    cbn [poll_world] in Ht, Hs |- *.
    rewrite wait_loop_goes_on.
    + apply IH; try assumption; [lia|].
      intros i Hi. apply (Hgo (S i)). lia.
    + pose proof (poll_world_clock test_id n (after_turn backend test_id w)).
      pose proof (after_turn_later test_id w). unfold seconds in *. lia.
    + apply (Hgo O). lia.
Qed.

Lemma ceil5_bounds (x : Z) : 5 * ((x + 4) / 5) <= x + 4 < 5 * ((x + 4) / 5) + 5.
Proof.
  pose proof (Z.div_mod (x + 4) 5). pose proof (Z.mod_pos_bound (x + 4) 5). lia.
Qed.

Lemma poll_budget_enough (max_wait_time : Z) (n : nat) :
  seconds 5 * Z.of_nat n < seconds max_wait_time -> (n < poll_budget max_wait_time)%nat.
Proof.
  unfold seconds, poll_budget. intros H.
  assert (Z.of_nat n + 1 <= (max_wait_time + 4) / 5).
  { apply Z.div_le_lower_bound; lia. }
  lia.
Qed.

(** C1: when the polls before the n-th one report non-terminal statuses and
    the n-th one, started before the time has elapsed, reports ["completed"],
    ["failed"] or fails ([None]), [wait_for_test_completion] returns right
    after that poll, [True] for ["completed"] and [False] otherwise, having
    slept five seconds between successive polls. *)
Theorem wait_returns_at_first_terminal_poll (test_id : value) (max_wait_time : Z)
    (w : World) (n : nat) (status : value) :
  let w0 := snd (print (waiting_line test_id) w) in
  let last := poll_world backend test_id n w0 in
  (forall i, (i < n)%nat -> poll_goes_on backend test_id (poll_world backend test_id i w0)) ->
  clock last - clock w0 < seconds max_wait_time ->
  fst (get_test_status backend test_id last) = Ret status ->
  status = VStr "completed" \/ status = VStr "failed" \/ status = VNone ->
  wait_for_test_completion backend test_id max_wait_time w
  = (Ret (eq_str status "completed"),
     snd (print (verdict_line test_id status) (snd (get_test_status backend test_id last))))
  /\ io (trace (snd (wait_for_test_completion backend test_id max_wait_time w)))
     = io (trace w) ++ polls (get_request (test_url test_id)) (S n).
Proof.
  intros w0 last Hgo Ht Hs Hterm.
  assert (Hn : nonterminal status = false).
  { destruct Hterm as [-> | [-> | ->]]; reflexivity. }
  assert (Hrun : wait_for_test_completion backend test_id max_wait_time w
                 = (Ret (eq_str status "completed"),
                    snd (print (verdict_line test_id status)
                           (snd (get_test_status backend test_id last))))).
  { unfold wait_for_test_completion.
    unfold bind at 1. fold (waiting_line test_id).
    change (print (waiting_line test_id) w) with (Ret tt, w0).
    unfold bind at 1, time_time. unfold bind at 1.
    rewrite (wait_loop_first_terminal test_id (clock w0) max_wait_time status n);
      try assumption; [reflexivity|].
    apply poll_budget_enough.
    pose proof (poll_world_clock test_id n w0). fold last in H. lia. }
  split; [exact Hrun|].
  rewrite Hrun. cbn [snd print trace]. rewrite io_printed, get_test_status_io.
  unfold last. rewrite poll_world_io. subst w0. cbn [snd print trace].
  rewrite io_printed, <- app_assoc. reflexivity.
Qed.

(** C10: when the backend answers HTTP 200 with a JSON object that has no
    [status] key, [get_test_status] returns ["unknown"], not the failure
    sentinel, and the polling loop takes it for a non-terminal status: it
    sleeps and polls again instead of returning. *)
Theorem missing_status_is_unknown (test_id : value) (w : World) (r : Response)
    (d : list (string * value)) :
  next_reply backend w (get_request (test_url test_id)) = Answer r ->
  status_code r = 200 -> body r = Some (VDict d) -> lookup "status" d = None ->
  fst (get_test_status backend test_id w) = Ret (VStr "unknown")
  /\ poll_goes_on backend test_id w
  /\ forall fuel start_time max_wait_time,
       clock w - start_time < seconds max_wait_time ->
       wait_loop backend (S fuel) test_id start_time max_wait_time w
       = wait_loop backend fuel test_id start_time max_wait_time
           (after_turn backend test_id w).
Proof.
  intros Ha Hc Hb Hl.
  assert (H : fst (get_test_status backend test_id w) = Ret (VStr "unknown")).
  { run. rewrite Ha, Hc. cbn. rewrite Hb, Hl. reflexivity. }
  assert (Hgo : poll_goes_on backend test_id w).
  { exists (VStr "unknown"). split; [exact H|reflexivity]. }
  repeat split; try assumption.
  intros fuel start_time max_wait_time Ht. now apply wait_loop_goes_on.
Qed.

(** The loop ends by itself when every poll goes on: after [k] turns the
    time has elapsed, and it had not before any of them. *)
Lemma wait_loop_times_out (test_id : value) (start_time max_wait_time : Z) :
  (forall w, poll_goes_on backend test_id w) ->
  forall (fuel : nat) (w : World),
    seconds max_wait_time - (clock w - start_time) <= seconds 5 * Z.of_nat fuel ->
    exists k,
      (k <= fuel)%nat
      /\ wait_loop backend (S fuel) test_id start_time max_wait_time w
         = (Ret None, poll_world backend test_id k w)
      /\ seconds max_wait_time <= clock (poll_world backend test_id k w) - start_time
      /\ (forall i, (i < k)%nat ->
            clock (poll_world backend test_id i w) - start_time < seconds max_wait_time).
Proof.
  intros Hall. induction fuel as [|fuel IH]; intros w Hrem.
  - exists O. cbn [poll_world]. repeat split; [lia| |lia|lia].
    apply wait_loop_elapsed. lia.
  - destruct (Z_lt_le_dec (clock w - start_time) (seconds max_wait_time)) as [Hlt|Hge].
    + destruct (IH (after_turn backend test_id w)) as [k [Hk [Hrun [Hend Hbefore]]]].
      { pose proof (after_turn_later test_id w). unfold seconds in *. lia. }
      exists (S k). cbn [poll_world]. repeat split; [lia| |exact Hend|].
      * rewrite wait_loop_goes_on; [exact Hrun|exact Hlt|apply Hall].
      * intros [|i] Hi; cbn [poll_world]; [exact Hlt|]. apply Hbefore. lia.
    + exists O. cbn [poll_world]. repeat split; [lia| |lia|lia].
      now apply wait_loop_elapsed.
Qed.

Lemma poll_world_clock_instantaneous (test_id : value) (n : nat) (w : World) :
  instantaneous backend ->
  clock (poll_world backend test_id n w) = clock w + seconds 5 * Z.of_nat n.
Proof.
  intros Hi. revert w. induction n as [|n IH]; intros w; cbn [poll_world]; [lia|].
  rewrite IH, after_turn_clock.
  destruct (Hi (requests_sent (trace w))) as [-> _].
  destruct (Hi (naps_taken (trace w))) as [_ ->]. lia.
Qed.

(** C4 (as amended): when every poll reports a non-terminal status,
    [wait_for_test_completion] terminates and returns [False] once at least
    [max_wait_time] seconds have elapsed, after at most
    [ceil(max_wait_time / 5)] polls, each followed by a sleep of five
    seconds.  When requests and sleeps take no longer than asked, the polls
    are exactly [ceil(max_wait_time / 5)] (none for a budget that is not
    positive), five seconds apart, and the wait ends less than five seconds
    after [max_wait_time]. *)
Theorem wait_times_out (test_id : value) (max_wait_time : Z) (w : World) :
  (forall w', poll_goes_on backend test_id w') ->
  exists k,
    wait_for_test_completion backend test_id max_wait_time w
    = (Ret false,
       snd (print (timeout_line test_id)
              (poll_world backend test_id k (snd (print (waiting_line test_id) w)))))
    /\ (k <= Z.to_nat ((max_wait_time + 4) / 5))%nat
    /\ io (trace (snd (wait_for_test_completion backend test_id max_wait_time w)))
       = io (trace w) ++ turns (get_request (test_url test_id)) k
    /\ seconds max_wait_time
       <= clock (snd (wait_for_test_completion backend test_id max_wait_time w)) - clock w
    /\ (instantaneous backend ->
        k = Z.to_nat ((max_wait_time + 4) / 5)
        /\ clock (snd (wait_for_test_completion backend test_id max_wait_time w)) - clock w
           = seconds (5 * Z.of_nat k)
        /\ (0 <= max_wait_time ->
            clock (snd (wait_for_test_completion backend test_id max_wait_time w)) - clock w
            < seconds (max_wait_time + 5))).
Proof.
  intros Hall.
  set (w0 := snd (print (waiting_line test_id) w)).
  destruct (wait_loop_times_out test_id (clock w0) max_wait_time Hall
              (Z.to_nat ((max_wait_time + 4) / 5)) w0)
    as [k [Hk [Hrun [Hend Hbefore]]]].
  { pose proof (ceil5_bounds max_wait_time). unfold seconds. lia. }
  assert (Hwait : wait_for_test_completion backend test_id max_wait_time w
                  = (Ret false,
                     snd (print (timeout_line test_id) (poll_world backend test_id k w0)))).
  { unfold wait_for_test_completion.
    unfold bind at 1. fold (waiting_line test_id).
    change (print (waiting_line test_id) w) with (Ret tt, w0).
    unfold bind at 1, time_time. unfold bind at 1.
    unfold poll_budget. rewrite Hrun. reflexivity. }
  exists k. rewrite Hwait. cbn [snd print clock trace].
  change (clock w) with (clock w0).
  repeat apply conj.
  - reflexivity.
  - exact Hk.
  - rewrite io_printed, poll_world_io. subst w0. cbn [snd print trace].
    rewrite io_printed. reflexivity.
  - exact Hend.
  - intros Hi. rewrite (poll_world_clock_instantaneous test_id k w0 Hi) in *.
    pose proof (ceil5_bounds max_wait_time) as Hceil.
    assert (Hk' : k = Z.to_nat ((max_wait_time + 4) / 5)).
    { destruct k as [|k].
      - unfold seconds in *. lia.
      - specialize (Hbefore k (Nat.lt_succ_diag_r k)).
        rewrite (poll_world_clock_instantaneous test_id k w0 Hi) in Hbefore.
        unfold seconds in *. lia. }
    repeat apply conj.
    + exact Hk'.
    + unfold seconds. lia.
    + intros Hpos. unfold seconds in *. lia.
Qed.

(** *** The fuel of the loop is enough *)

Lemma get_test_status_halts (test_id : value) (w : World) :
  fst (get_test_status backend test_id w) <> OutOfFuel.
Proof. run. cases; discriminate. Qed.

Lemma wait_loop_halts (test_id : value) (start_time max_wait_time : Z) :
  forall (fuel : nat) (w : World),
    seconds max_wait_time - (clock w - start_time) <= seconds 5 * Z.of_nat fuel ->
    fst (wait_loop backend (S fuel) test_id start_time max_wait_time w) <> OutOfFuel.
Proof.
  induction fuel as [|fuel IH]; intros w Hrem.
  - rewrite wait_loop_elapsed; [discriminate|lia].
  - destruct (Z_lt_le_dec (clock w - start_time) (seconds max_wait_time)) as [Hlt|Hge].
    + destruct (fst (get_test_status backend test_id w)) as [status|e|] eqn:Hs.
      * destruct (nonterminal status) eqn:Hn.
        -- rewrite wait_loop_goes_on; [|exact Hlt|now exists status].
           apply IH. pose proof (after_turn_later test_id w). unfold seconds in *. lia.
        -- rewrite (wait_loop_terminal _ _ _ _ _ status Hlt Hs Hn). discriminate.
      * rewrite (wait_loop_raises _ _ _ _ _ e Hlt Hs). discriminate.
      * now apply get_test_status_halts in Hs.
    + rewrite wait_loop_elapsed; [discriminate|exact Hge].
Qed.

(** Whatever the backend answers, the wait ends: its loop never runs out of
    the turns [poll_budget] grants. *)
Lemma wait_for_test_completion_halts (test_id : value) (max_wait_time : Z) (w : World) :
  fst (wait_for_test_completion backend test_id max_wait_time w) <> OutOfFuel.
Proof.
  unfold wait_for_test_completion.
  rewrite (bind_ret _ _ _ tt) by reflexivity.
  rewrite (bind_ret _ _ _ (clock (snd (print (waiting_line test_id) w)))) by reflexivity.
  cbn [snd time_time].
  set (w0 := snd (print _ w)).
  pose proof (wait_loop_halts test_id (clock w0) max_wait_time
                (Z.to_nat ((max_wait_time + 4) / 5)) w0) as H.
  fold (poll_budget max_wait_time) in H.
  unfold bind.
  destruct (wait_loop backend (poll_budget max_wait_time) test_id (clock w0)
              max_wait_time w0) as [[[b|]|e|] w1]; cbn [fst] in *; try discriminate.
  intros _. apply H; [|reflexivity].
  pose proof (ceil5_bounds max_wait_time). unfold seconds. lia.
Qed.

(** *** No operation runs out of fuel *)

Lemma halts_bind {A B} (m : M A) (k : A -> M B) :
  halts m -> (forall a, halts (k a)) -> halts (bind m k).
Proof.
  intros Hm Hk w. unfold bind. specialize (Hm w).
  destruct (m w) as [[a|e|] w']; cbn [fst] in *; [apply Hk|discriminate|congruence].
Qed.

Lemma halts_try_except {A} (body : M A) (handler : exn -> M A) :
  halts body -> (forall e, halts (handler e)) -> halts (try_except body handler).
Proof.
  intros Hb Hh w. unfold try_except. specialize (Hb w).
  destruct (body w) as [[a|e|] w']; cbn [fst] in *; [discriminate| |congruence].
  destruct (is_RequestException e); [apply Hh|discriminate].
Qed.

Lemma halts_ret {A} (a : A) : halts (ret a).
Proof. intros w. discriminate. Qed.

Lemma halts_raise {A} (e : exn) : halts (@raise A e).
Proof. intros w. discriminate. Qed.

Lemma halts_print (line : fstring) : halts (print line).
Proof. intros w. discriminate. Qed.

Lemma halts_send (req : request) : halts (send backend req).
Proof. intros w. unfold send. destruct (answer backend _ _); discriminate. Qed.

Lemma halts_json (response : Response) : halts (json response).
Proof. intros w. unfold json. destruct (body response); discriminate. Qed.

Lemma halts_py_get (obj : value) (key : string) (default : value) :
  halts (py_get obj key default).
Proof.
  intros w. unfold py_get. destruct obj; try discriminate.
  destruct (lookup key d); discriminate.
Qed.

Lemma halts_format_2f (v : value) : halts (format_2f v).
Proof.
  intros w. unfold format_2f. destruct v; try discriminate.
  destruct (fits_double z); discriminate.
Qed.

Lemma halts_py_iter (v : value) : halts (py_iter v).
Proof. intros w. destruct v; discriminate. Qed.

Lemma halts_for_each {A} (l : list A) (body : A -> M unit) :
  (forall x, halts (body x)) -> halts (for_each l body).
Proof.
  intros Hb. induction l as [|x l IH]; cbn [for_each]; [apply halts_ret|].
  apply halts_bind; [apply Hb|intros _; exact IH].
Qed.

Lemma halts_wait_for_test_completion (test_id : value) (max_wait_time : Z) :
  halts (wait_for_test_completion backend test_id max_wait_time).
Proof. intros w. apply wait_for_test_completion_halts. Qed.

(** Take a computation one step apart, down to the primitives. *)
Ltac halting_step :=
  first
    [ apply halts_wait_for_test_completion
    | apply halts_ret | apply halts_raise | apply halts_print | apply halts_send
    | apply halts_json | apply halts_py_get | apply halts_format_2f
    | apply halts_py_iter
    | apply halts_for_each; intros ?
    | match goal with
      | |- halts (if ?b then _ else _) => destruct b
      | |- halts (bind _ _) => apply halts_bind; [|intros ?]
      | |- halts (try_except _ _) => apply halts_try_except; [|intros ?]
      end ].

Ltac halting := repeat halting_step.

Lemma halts_list_all_tests : halts (list_all_tests backend).
Proof. unfold list_all_tests, print_response, requests_get. halting. Qed.

Lemma halts_start_test : halts (start_test backend).
Proof. unfold start_test, print_response, requests_post. halting. Qed.

Lemma halts_get_test_results (test_id : value) : halts (get_test_results backend test_id).
Proof. unfold get_test_results, print_response, requests_get. halting. Qed.

Lemma halts_delete_test (test_id : value) : halts (delete_test backend test_id).
Proof. unfold delete_test, requests_delete. halting. Qed.

Lemma halts_show_results (results : value) : halts (show_results results).
Proof. unfold show_results, show_overall, show_method. halting. Qed.

(** Whatever the backend does, [main] ends with an exit status. *)
Lemma main_exits (w : World) : exit_code (fst (main backend w)) <> None.
Proof.
  assert (H : halts (main backend)).
  { unfold main, requests_get, sys_exit.
    repeat first
      [ apply halts_list_all_tests | apply halts_start_test
      | apply halts_get_test_results | apply halts_delete_test
      | apply halts_show_results | halting_step ]. }
  specialize (H w). destruct (fst (main backend w)) as [u|[]|]; cbn; congruence.
Qed.

(** *** The driver *)

Lemma py_get_dict (d : list (string * value)) (key : string) (default : value)
    (w : World) :
  py_get (VDict d) key default w = (Ret (field key d default), w).
Proof. unfold py_get, field. destruct (lookup key d); reflexivity. Qed.

Lemma format_2f_numeric (v : value) (w : World) :
  numeric v = true -> format_2f v w = (Ret (Fmt2f v), w).
Proof.
  destruct v; cbn [numeric format_2f]; try discriminate; try reflexivity.
  now intros ->.
Qed.

Lemma rate_ok_numeric (key : string) (d : list (string * value)) :
  rate_ok key d = true -> numeric (field key d (VInt 0)) = true.
Proof. unfold rate_ok, field. destruct (lookup key d); auto. Qed.

Lemma list_all_tests_returns (w : World) :
  exists v, fst (list_all_tests backend w) = Ret v.
Proof. run. cases; eexists; reflexivity. Qed.

Lemma delete_test_returns (test_id : value) (w : World) :
  exists b, fst (delete_test backend test_id w) = Ret b.
Proof. run. cases; eexists; reflexivity. Qed.

Lemma show_overall_returns (d : list (string * value)) (w : World) :
  rate_ok "overall_rps" d = true -> rate_ok "overall_success_rate" d = true ->
  fst (show_overall (VDict d) w) = Ret tt.
Proof.
  intros H1 H2. apply rate_ok_numeric in H1, H2.
  unfold show_overall, bind, print.
  repeat (first [rewrite py_get_dict | rewrite format_2f_numeric by assumption];
          cbv beta iota).
  reflexivity.
Qed.

Lemma show_method_returns (result : value) (w : World) :
  method_shape result = true -> fst (show_method result w) = Ret tt.
Proof.
  destruct result; cbn [method_shape]; try discriminate.
  intros H. apply andb_prop in H. destruct H as [H1 H2].
  apply rate_ok_numeric in H1, H2.
  unfold show_method, bind, print.
  repeat (first [rewrite py_get_dict | rewrite format_2f_numeric by assumption];
          cbv beta iota).
  reflexivity.
Qed.

Lemma for_each_show_method_returns (l : list value) :
  forallb method_shape l = true ->
  forall w, fst (for_each l show_method w) = Ret tt.
Proof.
  induction l as [|x l IH]; cbn [forallb for_each]; intros H w; [reflexivity|].
  apply andb_prop in H. destruct H as [Hx Hl].
  rewrite (bind_ret _ _ _ tt (show_method_returns x w Hx)). now apply IH.
Qed.

Lemma show_results_returns (d : list (string * value)) (w : World) :
  overall_shape (field "overall" d (VDict [])) = true ->
  results_shape (field "results" d (VList [])) = true ->
  fst (show_results (VDict d) w) = Ret tt.
Proof.
  intros Ho Hr. unfold show_results.
  rewrite (bind_ret _ _ _ tt) by reflexivity.
  rewrite (bind_ret _ _ _ (field "overall" d (VDict []))) by (now rewrite py_get_dict).
  rewrite py_get_dict. cbn [snd].
  set (w1 := snd (print _ w)).
  assert (Hov : exists w2,
             (if truthy (field "overall" d (VDict []))
              then show_overall (field "overall" d (VDict [])) else ret tt) w1
             = (Ret tt, w2)).
  { unfold overall_shape in Ho.
    destruct (truthy (field "overall" d (VDict []))); [|eexists; reflexivity].
    cbn [negb orb] in Ho.
    destruct (field "overall" d (VDict [])) as [| | | | | |od]; try discriminate.
    apply andb_prop in Ho. destruct Ho as [H1 H2].
    pose proof (show_overall_returns od w1 H1 H2) as H.
    destruct (show_overall (VDict od) w1) as [o w2]. cbn in H. subst o.
    now exists w2. }
  destruct Hov as [w2 Hov].
  rewrite (bind_ret _ _ _ tt) by (now rewrite Hov). rewrite Hov. cbn [snd].
  rewrite (bind_ret _ _ _ (field "results" d (VList []))) by (now rewrite py_get_dict).
  rewrite py_get_dict. cbn [snd].
  unfold results_shape in Hr.
  destruct (truthy (field "results" d (VList []))); [|reflexivity].
  cbn [negb orb] in Hr.
  destruct (field "results" d (VList [])) as [| | | | |l|]; try discriminate.
  rewrite (bind_ret _ _ _ tt) by reflexivity.
  rewrite (bind_ret _ _ _ l) by reflexivity.
  now apply for_each_show_method_returns.
Qed.

Lemma start_test_returns (w : World) :
  well_behaved backend -> exists v, fst (start_test backend w) = Ret v.
Proof.
  intros Hwb.
  pose proof (Hwb (requests_sent (trace w)) (post_test_request full_test_config) eq_refl)
    as Hc.
  unfold conforming in Hc. run. autorewrite with trace.
  destruct (answer backend _ _) as [msg|r];
    cbn [fst snd is_RequestException]; [eexists; reflexivity|].
  destruct (status_code r =? 200); cbn [fst snd].
  - destruct (body r) as [[| | | | | |d]|]; try discriminate;
      cbn [fst snd is_RequestException]; [|eexists; reflexivity].
    destruct (lookup "test_id" d); eexists; reflexivity.
  - destruct (body r); eexists; reflexivity.
Qed.

Lemma get_test_status_returns (test_id : value) (w : World) :
  well_behaved backend -> exists status, fst (get_test_status backend test_id w) = Ret status.
Proof.
  intros Hwb.
  pose proof (Hwb (requests_sent (trace w)) (get_request (test_url test_id)) eq_refl)
    as Hc.
  unfold conforming in Hc. run.
  destruct (answer backend _ _) as [msg|r];
    cbn [fst snd is_RequestException]; [eexists; reflexivity|].
  destruct (status_code r =? 200); cbn [fst snd]; [|eexists; reflexivity].
  destruct (body r) as [[| | | | | |d]|]; try discriminate;
    cbn [fst snd is_RequestException]; [|eexists; reflexivity].
  destruct (lookup "status" d); eexists; reflexivity.
Qed.

Lemma get_test_results_returns (test_id : value) (w : World) :
  well_behaved backend ->
  exists v,
    fst (get_test_results backend test_id w) = Ret v
    /\ (truthy v = true ->
        exists d, v = VDict d
                  /\ overall_shape (field "overall" d (VDict [])) = true
                  /\ results_shape (field "results" d (VList [])) = true).
Proof.
  intros Hwb.
  pose proof (Hwb (requests_sent (trace w)) (get_request (test_url test_id)) eq_refl)
    as Hc.
  unfold conforming in Hc. run.
  destruct (answer backend _ _) as [msg|r]; cbn [fst snd is_RequestException];
    [exists VNone; split; [reflexivity|discriminate]|].
  destruct (status_code r =? 200); cbn [fst snd];
    [|exists VNone; split; [reflexivity|discriminate]].
  destruct (body r) as [[| | | | | |d]|]; try discriminate;
    cbn [fst snd is_RequestException];
    [|exists VNone; split; [reflexivity|discriminate]].
  unfold field in Hc at 1.
  destruct (lookup "status" d) as [s|]; cbn [fst snd eq_str] in *;
    [|exists VNone; split; [reflexivity|discriminate]].
  destruct (eq_str s "completed"); cbn [fst snd];
    [|exists VNone; split; [reflexivity|discriminate]].
  apply andb_prop in Hc. destruct Hc as [Ho Hr].
  exists (VDict d). split; [reflexivity|]. intros _. now exists d.
Qed.

(** The loop returns when no poll raises. *)
Lemma wait_loop_returns (test_id : value) (start_time max_wait_time : Z) :
  (forall w, exists status, fst (get_test_status backend test_id w) = Ret status) ->
  forall (fuel : nat) (w : World),
    seconds max_wait_time - (clock w - start_time) <= seconds 5 * Z.of_nat fuel ->
    exists r, fst (wait_loop backend (S fuel) test_id start_time max_wait_time w) = Ret r.
Proof.
  intros Hret. induction fuel as [|fuel IH]; intros w Hrem.
  - exists None. rewrite wait_loop_elapsed; [reflexivity|lia].
  - destruct (Z_lt_le_dec (clock w - start_time) (seconds max_wait_time)) as [Hlt|Hge].
    + destruct (Hret w) as [status Hs].
      destruct (nonterminal status) eqn:Hn.
      * rewrite wait_loop_goes_on; [|exact Hlt|now exists status].
        apply IH. pose proof (after_turn_later test_id w). unfold seconds in *. lia.
      * rewrite (wait_loop_terminal _ _ _ _ _ status Hlt Hs Hn). eexists. reflexivity.
    + exists None. rewrite wait_loop_elapsed; [reflexivity|exact Hge].
Qed.

Lemma wait_for_test_completion_returns (test_id : value) (max_wait_time : Z) (w : World) :
  (forall w', exists status, fst (get_test_status backend test_id w') = Ret status) ->
  exists b, fst (wait_for_test_completion backend test_id max_wait_time w) = Ret b.
Proof.
  intros Hret. unfold wait_for_test_completion.
  rewrite (bind_ret _ _ _ tt) by reflexivity.
  rewrite (bind_ret _ _ _ (clock (snd (print (waiting_line test_id) w)))) by reflexivity.
  cbn [snd time_time].
  set (w0 := snd (print _ w)).
  destruct (wait_loop_returns test_id (clock w0) max_wait_time Hret
              (Z.to_nat ((max_wait_time + 4) / 5)) w0) as [r Hr].
  { pose proof (ceil5_bounds max_wait_time). unfold seconds. lia. }
  fold (poll_budget max_wait_time) in Hr.
  rewrite (bind_ret _ _ _ r Hr).
  destruct r as [b|]; eexists; reflexivity.
Qed.

Lemma main_unhealthy (w : World) :
  healthy backend w = false -> fst (main backend w) = Raise (SystemExit 1).
Proof.
  unfold healthy, next_reply, health_request, get_request. intros H.
  unfold main, try_except, requests_get, send, bind, print, sys_exit, raise, ret.
  cbn [fst snd clock trace]. autorewrite with trace.
  destruct (answer backend _ _) as [msg|r]; [reflexivity|].
  rewrite H. reflexivity.
Qed.

(** After a health check that passes, [main] goes on from [start_test]. *)
Lemma main_healthy (w : World) :
  healthy backend w = true ->
  main backend w
  = (test_id <- start_test backend ;;
     (if negb (truthy test_id) then
        print [Lit "❌ Failed to start test, exiting..."] ;;
        sys_exit 1
      else ret tt) ;;
     completed <- wait_for_test_completion backend test_id default_max_wait_time ;;
     (if completed then
        results <- get_test_results backend test_id ;;
        if truthy results then show_results results else ret tt
      else ret tt) ;;
     print [Lit (nl ++ "📋 Listing tests after completion...")%string] ;;
     list_all_tests backend ;;
     print [Lit (nl ++ "🧹 Cleaning up test ")%string; Fmt test_id; Lit "..."] ;;
     delete_test backend test_id ;;
     print completed_line) (ready backend w).
Proof.
  unfold healthy, next_reply, health_request, get_request. intros H.
  unfold main, ready.
  unfold try_except at 1, requests_get, send.
  unfold bind, print, ret.
  cbn [fst snd clock trace negb]. autorewrite with trace in *.
  destruct (answer backend _ _) as [msg|r]; [discriminate|].
  rewrite H. cbn [fst snd clock trace negb].
  match goal with
  | |- context [list_all_tests backend ?W] =>
      destruct (list_all_tests_returns W) as [v Hv];
      destruct (list_all_tests backend W) as [o W']
  end.
  cbn [fst] in Hv. subst o. reflexivity.
Qed.

Lemma main_no_handle (w : World) (handle : value) :
  healthy backend w = true ->
  fst (start_test backend (ready backend w)) = Ret handle ->
  truthy handle = false ->
  fst (main backend w) = Raise (SystemExit 1).
Proof.
  intros Hh Hs Ht. rewrite (main_healthy w Hh).
  rewrite (bind_ret _ _ _ handle Hs). rewrite Ht. cbn [negb].
  rewrite (bind_raise _ _ _ (SystemExit 1)) by reflexivity. reflexivity.
Qed.

Lemma main_completes (w : World) (handle : value) :
  well_behaved backend ->
  healthy backend w = true ->
  fst (start_test backend (ready backend w)) = Ret handle ->
  truthy handle = true ->
  fst (main backend w) = Ret tt
  /\ last_line (snd (main backend w)) = Some completed_line
  /\ exists t,
       io (trace (snd (main backend w)))
       = t ++ [Sent list_request; Sent (delete_request (test_url handle))].
Proof.
  intros Hwb Hh Hs Ht. rewrite (main_healthy w Hh).
  rewrite (bind_ret _ _ _ handle Hs). rewrite Ht. cbn [negb].
  rewrite (bind_ret (ret tt) _ _ tt) by reflexivity. cbn [snd ret].
  set (w1 := snd (start_test backend (ready backend w))).
  destruct (wait_for_test_completion_returns handle default_max_wait_time w1
              (fun w' => get_test_status_returns handle w' Hwb)) as [b Hb].
  rewrite (bind_ret _ _ _ b Hb).
  set (w2 := snd (wait_for_test_completion backend handle default_max_wait_time w1)).
  assert (Hshow : exists w3,
             (if b then
                results <- get_test_results backend handle ;;
                if truthy results then show_results results else ret tt
              else ret tt) w2 = (Ret tt, w3)).
  { destruct b; [|eexists; reflexivity].
    destruct (get_test_results_returns handle w2 Hwb) as [v [Hv Hshape]].
    rewrite (bind_ret _ _ _ v Hv).
    destruct (truthy v); [|eexists; reflexivity].
    destruct (Hshape eq_refl) as [d [-> [Ho Hr]]].
    pose proof (show_results_returns d (snd (get_test_results backend handle w2)) Ho Hr)
      as H.
    destruct (show_results (VDict d) _) as [o w3]. cbn [fst] in H. subst o.
    now exists w3. }
  destruct Hshow as [w3 Hshow].
  rewrite (bind_ret _ _ _ tt) by (now rewrite Hshow). rewrite Hshow. cbn [snd].
  rewrite (bind_ret (print _) _ _ tt) by reflexivity.
  set (w4 := snd (print _ w3)).
  destruct (list_all_tests_returns w4) as [v Hv].
  rewrite (bind_ret _ _ _ v Hv).
  rewrite (bind_ret (print _) _ _ tt) by reflexivity.
  set (w5 := snd (print _ (snd (list_all_tests backend w4)))).
  destruct (delete_test_returns handle w5) as [deleted Hd].
  rewrite (bind_ret _ _ _ deleted Hd).
  unfold print at 1 2 3. cbn [fst snd trace].
  split; [reflexivity|]. split; [apply last_line_printed|].
  exists (io (trace w3)).
  rewrite io_printed, delete_test_io. subst w5. cbn [snd print trace].
  rewrite io_printed, list_all_tests_io. subst w4. cbn [snd print trace].
  rewrite io_printed, <- app_assoc. reflexivity.
Qed.


End Properties.

(** ** The properties at work on the scenarios *)





Lemma get_test_results_completed_only_witness :
  fst (get_test_results completing (VStr "abc") (after_turn completing (VStr "abc") boot))
  = Ret (status_body "completed")
  /\ last_line (snd (get_test_results always_running (VStr "abc") boot))
     = Some (still_running (VStr "abc"))
  /\ last_line (snd (get_test_results refusing (VStr "abc") boot))
     = Some (results_failed 500)
  /\ last_line (snd (get_test_results unreachable (VStr "abc") boot))
     = Some (network_error (RequestException "connection refused")).
Proof.
  repeat apply conj.
  - apply (proj1 (get_test_results_completed_only completing (VStr "abc")
                    (after_turn completing (VStr "abc") boot))
             (status_body "completed")); [discriminate|].
    exists {| status_code := 200; headers := []; body := Some (status_body "completed") |},
      [("status", VStr "completed")].
    repeat apply conj; reflexivity.
  - apply (proj1 (proj2 (get_test_results_completed_only always_running (VStr "abc") boot))
             {| status_code := 200; headers := []; body := Some (status_body "running") |}
             [("status", VStr "running")]); try reflexivity. discriminate.
  - apply (proj1 (proj2 (proj2 (get_test_results_completed_only refusing (VStr "abc") boot)))
             {| status_code := 500; headers := []; body := None |});
      [reflexivity|discriminate].
  - apply (proj2 (proj2 (proj2 (get_test_results_completed_only unreachable (VStr "abc") boot)))
             "connection refused"); reflexivity.
Defined.

Lemma network_failures_absorbed_witness :
  fst (start_test unreachable boot) = Ret VNone
  /\ fst (start_simple_test unreachable boot) = Ret VNone
  /\ fst (get_test_status unreachable (VStr "abc") boot) = Ret VNone
  /\ fst (get_test_results unreachable (VStr "abc") boot) = Ret VNone
  /\ fst (list_all_tests unreachable boot) = Ret VNone
  /\ fst (delete_test unreachable (VStr "abc") boot) = Ret false.
Proof.
  apply (proj2 (network_failures_absorbed unreachable (VStr "abc") boot)
           "connection refused").
  intros req. reflexivity.
Defined.

Lemma always_running_goes_on (test_id : value) (w : World) :
  poll_goes_on always_running test_id w.
Proof.
  exists (VStr "running"). split; [|reflexivity].
  run. destruct (requests_sent (trace w)); reflexivity.
Qed.

Lemma wait_returns_at_first_terminal_poll_witness :
  wait_for_test_completion completing (VStr "abc") 300 boot
  = (Ret true,
     snd (print (verdict_line (VStr "abc") (VStr "completed"))
            (snd (get_test_status completing (VStr "abc")
                    (poll_world completing (VStr "abc") 1
                       (snd (print (waiting_line (VStr "abc")) boot)))))))
  /\ io (trace (snd (wait_for_test_completion completing (VStr "abc") 300 boot)))
     = polls (get_request (test_url (VStr "abc"))) 2.
Proof.
  apply (wait_returns_at_first_terminal_poll completing (VStr "abc") 300 boot 1
           (VStr "completed")).
  - intros [|i] Hi; [|exfalso; lia].
    exists (VStr "running"). split; reflexivity.
  - reflexivity.
  - reflexivity.
  - left. reflexivity.
Defined.

Lemma missing_status_is_unknown_witness :
  fst (get_test_status no_status (VStr "abc") boot) = Ret (VStr "unknown")
  /\ poll_goes_on no_status (VStr "abc") boot
  /\ forall fuel start_time max_wait_time,
       clock boot - start_time < seconds max_wait_time ->
       wait_loop no_status (S fuel) (VStr "abc") start_time max_wait_time boot
       = wait_loop no_status fuel (VStr "abc") start_time max_wait_time
           (after_turn no_status (VStr "abc") boot).
Proof.
  apply (missing_status_is_unknown no_status (VStr "abc") boot
           {| status_code := 200; headers := []; body := Some (VDict []) |} []);
    reflexivity.
Defined.

Lemma wait_times_out_witness :
  exists k,
    fst (wait_for_test_completion always_running (VStr "abc") 7 boot) = Ret false
    /\ k = 2%nat
    /\ io (trace (snd (wait_for_test_completion always_running (VStr "abc") 7 boot)))
       = turns (get_request (test_url (VStr "abc"))) k.
Proof.
  destruct (wait_times_out always_running (VStr "abc") 7 boot
              (always_running_goes_on (VStr "abc")))
    as [k [Hrun [_ [Hio [_ Hinst]]]]].
  exists k. split; [rewrite Hrun; reflexivity|]. split; [|exact Hio].
  apply Hinst. intros n. split; reflexivity.
Defined.

(** C4 (as stated): every poll reports the test running and the wait is
    given 7 seconds; it returns [False] 10 seconds after it was called, not
    within the 7. *)
Lemma wait_overshoots_max_wait :
  (forall w, poll_goes_on always_running (VStr "abc") w)
  /\ fst (wait_for_test_completion always_running (VStr "abc") 7 boot) = Ret false
  /\ clock (snd (wait_for_test_completion always_running (VStr "abc") 7 boot)) - clock boot
     = seconds 10
  /\ ~ (clock (snd (wait_for_test_completion always_running (VStr "abc") 7 boot))
        - clock boot <= seconds 7).
Proof.
  split; [apply always_running_goes_on|].
  split; [reflexivity|]. split; [reflexivity|].
  vm_compute. intros H. apply H. reflexivity.
Qed.

Lemma flaky_server_well_behaved : well_behaved flaky_server.
Proof. intros [|[|[|[|n]]]] req _; reflexivity. Qed.

Lemma demo_server_well_behaved : well_behaved demo_server.
Proof.
  intros n req H. unfold demo_server. cbn [answer].
  destruct (req_method req); [rewrite H| |]; reflexivity.
Qed.


(** The run against the demo server prints the summary of the results and
    completes. *)
Example main_on_demo_server :
  fst (main demo_server boot) = Ret tt
  /\ io (trace (snd (main demo_server boot)))
     = [Sent health_request; Sent list_request;
        Sent (post_test_request full_test_config);
        Sent (get_request (test_url (VStr "abc")));
        Sent (get_request (test_url (VStr "abc")));
        Sent list_request; Sent (delete_request (test_url (VStr "abc")))].
Proof. split; vm_compute; reflexivity. Qed.


(** * Further properties of the operations *)

Section Operations.

Variable backend : Backend.

Lemma eq_str_same (s : string) : eq_str (VStr s) s = true.
Proof. cbn. apply String.eqb_refl. Qed.

(** ** print_response *)


(** ** list_all_tests *)


(** ** Bodies that are not what the script expects *)

(** X3: a 200 answer whose body is not JSON is reported as a network error:
    each operation that parses the body prints the network error line and
    returns [None]. *)
Theorem unparsable_body_is_a_network_error (test_id : value) (w : World) (r : Response) :
  (forall req, next_reply backend w req = Answer r) ->
  status_code r = 200 -> body r = None ->
  (fst (start_test backend w) = Ret VNone
   /\ last_line (snd (start_test backend w)) = Some (network_error JSONDecodeError))
  /\ (fst (start_simple_test backend w) = Ret VNone
      /\ last_line (snd (start_simple_test backend w))
         = Some (network_error JSONDecodeError))
  /\ (fst (get_test_status backend test_id w) = Ret VNone
      /\ last_line (snd (get_test_status backend test_id w))
         = Some (network_error JSONDecodeError))
  /\ (fst (get_test_results backend test_id w) = Ret VNone
      /\ last_line (snd (get_test_results backend test_id w))
         = Some (network_error JSONDecodeError))
  /\ (fst (list_all_tests backend w) = Ret VNone
      /\ last_line (snd (list_all_tests backend w))
         = Some (network_error JSONDecodeError)).
Proof.
  intros Ha Hc Hb.
  repeat apply conj; run; autorewrite with trace; rewrite ?Ha, ?Hc; cbn;
    rewrite ?Hb; cbn; try reflexivity; apply last_line_printed.
Qed.

(** X4: a 200 answer whose JSON body is not an object makes the operations
    that read a field of it raise [AttributeError], which their handler for
    request errors lets through; [list_all_tests], which reads no field,
    returns the body. *)
Theorem non_object_body_raises (test_id : value) (w : World) (r : Response) (v : value) :
  (forall req, next_reply backend w req = Answer r) ->
  status_code r = 200 -> body r = Some v -> is_dict v = false ->
  fst (start_test backend w) = Raise AttributeError
  /\ fst (start_simple_test backend w) = Raise AttributeError
  /\ fst (get_test_status backend test_id w) = Raise AttributeError
  /\ fst (get_test_results backend test_id w) = Raise AttributeError
  /\ fst (list_all_tests backend w) = Ret v.
Proof.
  intros Ha Hc Hb Hv.
  repeat apply conj; run; autorewrite with trace; rewrite ?Ha, ?Hc; cbn;
    rewrite ?Hb; cbn; rewrite ?Hb; destruct v; try discriminate; reflexivity.
Qed.

(** ** start_test and start_simple_test *)

(** X5: the two operations that create a test differ in the configuration
    they submit and in their messages only: given the same reply they return
    the same outcome. *)
Theorem start_tests_agree (w : World) :
  next_reply backend w (post_test_request simple_test_config)
  = next_reply backend w (post_test_request full_test_config) ->
  fst (start_simple_test backend w) = fst (start_test backend w).
Proof.
  intros Ha. run. autorewrite with trace. rewrite Ha.
  cases; reflexivity.
Qed.

(** X6: when a 200 answer is an object without the [test_id] key, the
    creation still reports success, prints [None] as the test ID and returns
    [None]. *)
Theorem start_test_without_test_id (w : World) (r : Response) (d : list (string * value)) :
  (forall req, next_reply backend w req = Answer r) ->
  status_code r = 200 -> body r = Some (VDict d) -> lookup "test_id" d = None ->
  (fst (start_test backend w) = Ret VNone
   /\ stdout (trace (snd (start_test backend w)))
      = stdout (trace w)
        ++ [[Lit "🚀 Starting a new RPC test with method-specific configurations..."];
            [Lit "✅ Test started successfully!"];
            test_id_line VNone])
  /\ (fst (start_simple_test backend w) = Ret VNone
      /\ stdout (trace (snd (start_simple_test backend w)))
         = stdout (trace w)
           ++ [[Lit "🚀 Starting a simple RPC test with global defaults..."];
               [Lit "✅ Simple test started successfully!"];
               test_id_line VNone]).
Proof.
  intros Ha Hc Hb Hl.
  repeat apply conj; run; autorewrite with trace; rewrite Ha, Hc; cbn;
    rewrite Hb, Hl; cbn [fst snd trace]; try reflexivity;
    autorewrite with trace; rewrite <- !app_assoc; reflexivity.
Qed.

(** ** get_test_status and get_test_results *)

(** X7: the two readers of [GET /test/{id}] agree on a reply: the results
    are returned exactly when the status read from the same reply is
    ["completed"]. *)
Theorem results_iff_status_completed (test_id : value) (w1 w2 : World) :
  next_reply backend w1 (get_request (test_url test_id))
  = next_reply backend w2 (get_request (test_url test_id)) ->
  (fst (get_test_status backend test_id w1) = Ret (VStr "completed")
   <-> exists d, fst (get_test_results backend test_id w2) = Ret (VDict d)).
Proof.
  intros Ha. run. rewrite <- Ha.
  destruct (answer backend _ _) as [msg|r]; cbn [fst snd is_RequestException].
  - split; [discriminate|]. intros [d H]. discriminate.
  - destruct (status_code r =? 200); cbn [fst snd].
    + destruct (body r) as [[| | | | | |d]|]; cbn [fst snd is_RequestException];
        try (split; [discriminate|]; intros [d' H]; discriminate).
      destruct (lookup "status" d) as [s|]; cbn [fst snd eq_str].
      * destruct (eq_str s "completed") eqn:Hs; cbn [fst snd].
        -- apply eq_str_true in Hs. subst s. split; [|reflexivity].
           intros _. now exists d.
        -- split.
           ++ intros H. injection H as ->. rewrite eq_str_same in Hs. discriminate.
           ++ intros [d' H]. discriminate.
      * split; [discriminate|]. intros [d' H]. discriminate.
    + split; [discriminate|]. intros [d H]. discriminate.
Qed.

(** ** wait_for_test_completion *)

Lemma wait_for_test_completion_unfold (test_id : value) (max_wait_time : Z) (w : World) :
  wait_for_test_completion backend test_id max_wait_time w
  = (returned <- wait_loop backend (poll_budget max_wait_time) test_id
                   (clock w) max_wait_time ;;
     match returned with
     | Some b => ret b
     | None => print (timeout_line test_id) ;; ret false
     end) (snd (print (waiting_line test_id) w)).
Proof. reflexivity. Qed.

(** X8: a 200 answer that reports [{"status": null}] cannot be told from a
    failed call: the wait stops at that poll, says that it could not get the
    status and returns [False]. *)
Theorem null_status_stops_the_wait (test_id : value) (max_wait_time : Z) (w : World)
    (r : Response) (d : list (string * value)) :
  next_reply backend w (get_request (test_url test_id)) = Answer r ->
  status_code r = 200 -> body r = Some (VDict d) -> lookup "status" d = Some VNone ->
  0 < max_wait_time ->
  fst (wait_for_test_completion backend test_id max_wait_time w) = Ret false
  /\ last_line (snd (wait_for_test_completion backend test_id max_wait_time w))
     = Some (no_status_line test_id)
  /\ io (trace (snd (wait_for_test_completion backend test_id max_wait_time w)))
     = io (trace w) ++ [Sent (get_request (test_url test_id))].
Proof.
  intros Ha Hc Hb Hl Hmax.
  set (w0 := snd (print (waiting_line test_id) w)).
  assert (Hs : fst (get_test_status backend test_id w0) = Ret VNone).
  { subst w0. run. autorewrite with trace. rewrite Ha, Hc. cbn.
    rewrite Hb, Hl. reflexivity. }
  assert (Hrun : wait_for_test_completion backend test_id max_wait_time w
                 = (Ret false,
                    snd (print (no_status_line test_id)
                           (snd (get_test_status backend test_id w0))))).
  { rewrite wait_for_test_completion_unfold. fold w0.
    change (clock w) with (clock w0). unfold poll_budget, bind at 1.
    rewrite (wait_loop_terminal backend _ test_id (clock w0) max_wait_time w0 VNone);
      [reflexivity|unfold seconds; lia|exact Hs|reflexivity]. }
  rewrite Hrun. cbn [fst snd print trace clock].
  repeat apply conj.
  - reflexivity.
  - apply last_line_printed.
  - rewrite io_printed, get_test_status_io. subst w0. cbn [snd print trace].
    rewrite io_printed. reflexivity.
Qed.

(** X9: with a budget of time that is not positive the wait polls nothing:
    it prints its two lines and returns [False]. *)
Theorem wait_without_budget (test_id : value) (max_wait_time : Z) (w : World) :
  max_wait_time <= 0 ->
  wait_for_test_completion backend test_id max_wait_time w
  = (Ret false,
     snd (print (timeout_line test_id) (snd (print (waiting_line test_id) w)))).
Proof.
  intros Hmax. rewrite wait_for_test_completion_unfold.
  unfold poll_budget, bind at 1.
  rewrite wait_loop_elapsed; [reflexivity|].
  cbn [snd print clock]. unfold seconds. lia.
Qed.

Lemma turns_then_polls (req : request) (k : nat) :
  (0 < k)%nat -> turns req 1 ++ polls req k = polls req (S k).
Proof. destruct k as [|k]; [lia|]. reflexivity. Qed.

(** The requests and sleeps of the loop, whatever the polls return. *)
Lemma wait_loop_io (test_id : value) (start_time max_wait_time : Z) :
  forall (fuel : nat) (w : World),
    seconds max_wait_time - (clock w - start_time) <= seconds 5 * Z.of_nat fuel ->
    fst (wait_loop backend (S fuel) test_id start_time max_wait_time w) <> OutOfFuel
    /\ exists k,
         (k <= fuel)%nat
         /\ (io (trace (snd (wait_loop backend (S fuel) test_id start_time
                               max_wait_time w)))
             = io (trace w) ++ turns (get_request (test_url test_id)) k
             \/ ((0 < k)%nat
                 /\ io (trace (snd (wait_loop backend (S fuel) test_id start_time
                                      max_wait_time w)))
                    = io (trace w) ++ polls (get_request (test_url test_id)) k)).
Proof.
  induction fuel as [|fuel IH]; intros w Hrem.
  - rewrite wait_loop_elapsed by lia. split; [discriminate|].
    exists O. split; [lia|]. left. cbn. now rewrite app_nil_r.
  - destruct (Z_lt_le_dec (clock w - start_time) (seconds max_wait_time)) as [Hlt|Hge].
    + destruct (fst (get_test_status backend test_id w)) as [status|e|] eqn:Hs.
      * destruct (nonterminal status) eqn:Hn.
        -- rewrite wait_loop_goes_on; [|exact Hlt|now exists status].
           destruct (IH (after_turn backend test_id w)) as [Hhalt [k [Hk Hio]]].
           { pose proof (after_turn_later backend test_id w). unfold seconds in *. lia. }
           split; [exact Hhalt|]. exists (S k). split; [lia|].
           rewrite after_turn_io, <- !app_assoc in Hio.
           destruct Hio as [Hio|[Hpos Hio]].
           ++ left. exact Hio.
           ++ right. split; [lia|]. rewrite Hio, turns_then_polls by exact Hpos.
              reflexivity.
        -- rewrite (wait_loop_terminal backend _ _ _ _ _ status Hlt Hs Hn).
           split; [discriminate|]. exists 1%nat. split; [lia|]. right.
           split; [lia|]. cbn [snd print trace].
           rewrite io_printed, get_test_status_io. reflexivity.
      * rewrite (wait_loop_raises backend _ _ _ _ _ e Hlt Hs).
        split; [discriminate|]. exists 1%nat. split; [lia|]. right.
        split; [lia|]. cbn [snd]. rewrite get_test_status_io. reflexivity.
      * now apply get_test_status_halts in Hs.
    + rewrite wait_loop_elapsed by exact Hge. split; [discriminate|].
      exists O. split; [lia|]. left. cbn. now rewrite app_nil_r.
Qed.

(** The wait does nothing after its loop but print. *)
Lemma wait_after_loop (test_id : value) (max_wait_time : Z) (w : World) :
  io (trace (snd (wait_for_test_completion backend test_id max_wait_time w)))
  = io (trace (snd (wait_loop backend (poll_budget max_wait_time) test_id (clock w)
                      max_wait_time (snd (print (waiting_line test_id) w)))))
  /\ (fst (wait_for_test_completion backend test_id max_wait_time w) = OutOfFuel ->
      fst (wait_loop backend (poll_budget max_wait_time) test_id (clock w)
             max_wait_time (snd (print (waiting_line test_id) w))) = OutOfFuel).
Proof.
  rewrite wait_for_test_completion_unfold. unfold bind.
  destruct (wait_loop backend (poll_budget max_wait_time) test_id (clock w)
              max_wait_time (snd (print (waiting_line test_id) w)))
    as [[[b|]|e|] w1]; cbn [fst snd print ret trace];
    autorewrite with trace; split; try reflexivity; discriminate.
Qed.

(** X10: whatever the backend answers, the wait ends after at most
    [ceil(max_wait_time / 5)] polls: all it does besides printing is to send
    [GET /test/{id}] requests with a sleep of five seconds after each, the
    last one excepted when the wait returns or raises on a poll. *)
Theorem wait_polls_are_bounded (test_id : value) (max_wait_time : Z) (w : World) :
  fst (wait_for_test_completion backend test_id max_wait_time w) <> OutOfFuel
  /\ exists k,
       (k <= max_polls max_wait_time)%nat
       /\ (io (trace (snd (wait_for_test_completion backend test_id max_wait_time w)))
           = io (trace w) ++ turns (get_request (test_url test_id)) k
           \/ ((0 < k)%nat
               /\ io (trace (snd (wait_for_test_completion backend test_id
                                    max_wait_time w)))
                  = io (trace w) ++ polls (get_request (test_url test_id)) k)).
Proof.
  set (w0 := snd (print (waiting_line test_id) w)).
  destruct (wait_loop_io test_id (clock w0) max_wait_time
              (Z.to_nat ((max_wait_time + 4) / 5)) w0) as [Hhalt [k [Hk Hio]]].
  { pose proof (ceil5_bounds max_wait_time). unfold seconds. lia. }
  assert (Hw0 : io (trace w0) = io (trace w)).
  { subst w0. cbn [snd print trace]. apply io_printed. }
  rewrite Hw0 in Hio.
  destruct (wait_after_loop test_id max_wait_time w) as [Hsame Hfuel].
  fold w0 in Hsame, Hfuel. unfold poll_budget in Hsame, Hfuel.
  change (clock w) with (clock w0) in Hsame, Hfuel.
  rewrite Hsame. split; [intros H; apply Hhalt, Hfuel, H|]. now exists k.
Qed.

(** The loop returns [True] only from a poll that reported ["completed"]. *)
Lemma wait_loop_true (test_id : value) (start_time max_wait_time : Z) :
  forall (fuel : nat) (w : World),
    fst (wait_loop backend fuel test_id start_time max_wait_time w) = Ret (Some true) ->
    exists k,
      fst (get_test_status backend test_id (poll_world backend test_id k w))
      = Ret (VStr "completed")
      /\ snd (wait_loop backend fuel test_id start_time max_wait_time w)
         = snd (print (verdict_line test_id (VStr "completed"))
                  (snd (get_test_status backend test_id
                          (poll_world backend test_id k w)))).
Proof.
  induction fuel as [|fuel IH]; intros w Hret; [discriminate|].
  destruct (Z_lt_le_dec (clock w - start_time) (seconds max_wait_time)) as [Hlt|Hge].
  - destruct (fst (get_test_status backend test_id w)) as [status|e|] eqn:Hs.
    + destruct (nonterminal status) eqn:Hn.
      * rewrite wait_loop_goes_on in Hret |- *; try assumption; try (now exists status).
        destruct (IH _ Hret) as [k [Hk Hw]]. now exists (S k).
      * rewrite (wait_loop_terminal backend _ _ _ _ _ status Hlt Hs Hn) in Hret |- *.
        cbn [fst snd] in *. injection Hret as Hc. apply eq_str_true in Hc. subst status.
        exists O. now split.
    + rewrite (wait_loop_raises backend _ _ _ _ _ e Hlt Hs) in Hret. discriminate.
    + now apply get_test_status_halts in Hs.
  - rewrite wait_loop_elapsed in Hret by exact Hge. discriminate.
Qed.

(** X11: the wait returns [True] only when one of its polls reported
    ["completed"], and it returns right after that poll. *)
Theorem wait_true_only_when_completed (test_id : value) (max_wait_time : Z) (w : World) :
  fst (wait_for_test_completion backend test_id max_wait_time w) = Ret true ->
  exists k,
    fst (get_test_status backend test_id
           (poll_world backend test_id k (snd (print (waiting_line test_id) w))))
    = Ret (VStr "completed")
    /\ snd (wait_for_test_completion backend test_id max_wait_time w)
       = snd (print (verdict_line test_id (VStr "completed"))
                (snd (get_test_status backend test_id
                        (poll_world backend test_id k
                           (snd (print (waiting_line test_id) w)))))).
Proof.
  intros Hret. rewrite wait_for_test_completion_unfold in Hret |- *.
  set (w0 := snd (print (waiting_line test_id) w)) in *.
  pose proof (wait_loop_true test_id (clock w) max_wait_time
                (poll_budget max_wait_time) w0) as H.
  unfold bind in Hret |- *.
  destruct (wait_loop backend (poll_budget max_wait_time) test_id (clock w)
              max_wait_time w0) as [[[[|]|]|e|] w1]; cbn [fst snd print ret] in *;
    try discriminate.
  now apply H.
Qed.

Lemma wait_loop_first_raise (test_id : value) (start_time max_wait_time : Z)
    (e : exn) (n : nat) :
  forall (fuel : nat) (w : World),
    (n < fuel)%nat ->
    (forall i, (i < n)%nat -> poll_goes_on backend test_id (poll_world backend test_id i w)) ->
    clock (poll_world backend test_id n w) - start_time < seconds max_wait_time ->
    fst (get_test_status backend test_id (poll_world backend test_id n w)) = Raise e ->
    wait_loop backend fuel test_id start_time max_wait_time w
    = (Raise e, snd (get_test_status backend test_id (poll_world backend test_id n w))).
Proof.
  induction n as [|n IH]; intros fuel w Hf Hgo Ht Hs.
  - destruct fuel as [|fuel]; [lia|]. now apply wait_loop_raises.
  - destruct fuel as [|fuel]; [lia|].
    cbn [poll_world] in Ht, Hs |- *.
    rewrite wait_loop_goes_on.
    + apply IH; try assumption; [lia|].
      intros i Hi. apply (Hgo (S i)). lia.
    + pose proof (poll_world_clock backend test_id n (after_turn backend test_id w)).
      pose proof (after_turn_later backend test_id w). unfold seconds in *. lia.
    + apply (Hgo O). lia.
Qed.

(** X12: the wait catches nothing: when a poll started in time raises, after
    polls that went on, the wait raises the same exception at once, without
    a line of its own. *)
Theorem wait_raises_what_a_poll_raises (test_id : value) (max_wait_time : Z)
    (w : World) (n : nat) (e : exn) :
  let w0 := snd (print (waiting_line test_id) w) in
  let last := poll_world backend test_id n w0 in
  (forall i, (i < n)%nat -> poll_goes_on backend test_id (poll_world backend test_id i w0)) ->
  clock last - clock w0 < seconds max_wait_time ->
  fst (get_test_status backend test_id last) = Raise e ->
  wait_for_test_completion backend test_id max_wait_time w
  = (Raise e, snd (get_test_status backend test_id last)).
Proof.
  intros w0 last Hgo Ht Hs.
  rewrite wait_for_test_completion_unfold. fold w0.
  change (clock w) with (clock w0). unfold bind at 1.
  rewrite (wait_loop_first_raise test_id (clock w0) max_wait_time e n);
    try assumption; [reflexivity|].
  apply poll_budget_enough.
  pose proof (poll_world_clock backend test_id n w0). fold last in H. lia.
Qed.

(** ** The summary of the results *)

(** X13: a result with no [overall] and no [results], or with empty ones,
    is shown by the line of success alone. *)
Theorem show_results_without_details (d : list (string * value)) (w : World) :
  truthy (field "overall" d (VDict [])) = false ->
  truthy (field "results" d (VList [])) = false ->
  show_results (VDict d) w = (Ret tt, snd (print results_line w)).
Proof.
  intros Ho Hr. unfold show_results, bind.
  cbn [print fst snd]. rewrite !py_get_dict. rewrite Ho.
  cbn [ret]. rewrite !py_get_dict. rewrite Hr. reflexivity.
Qed.

(** X14: a rate of the [overall] summary that is not a number stops the
    summary: the counts are printed, then formatting the rate raises. *)
Theorem show_overall_bad_rate (d : list (string * value)) (w : World) (v : value) :
  lookup "overall_rps" d = Some v -> numeric v = false ->
  (exists e, fst (show_overall (VDict d) w) = Raise e
             /\ (e = ValueError \/ e = TypeError \/ e = OverflowError))
  /\ stdout (trace (snd (show_overall (VDict d) w)))
     = stdout (trace w) ++ overall_counts d.
Proof.
  intros Hl Hv.
  assert (Hf : field "overall_rps" d (VInt 0) = v).
  { unfold field. now rewrite Hl. }
  unfold show_overall, bind, overall_counts, print.
  repeat (rewrite py_get_dict; cbv beta iota). rewrite Hf.
  destruct v as [| |z| | | |]; cbn [numeric format_2f] in *; try discriminate;
    try rewrite Hv; cbn [raise fst snd trace]; autorewrite with trace;
    rewrite <- !app_assoc; (split; [eexists; split; [reflexivity|tauto]|reflexivity]).
Qed.

(** X15: a method record with none of its four keys is shown with the
    defaults: the name ["unknown"] and zeros. *)
Theorem show_method_defaults (d : list (string * value)) (w : World) :
  lookup "method_name" d = None -> lookup "total_requests" d = None ->
  lookup "success_rate" d = None -> lookup "requests_per_sec" d = None ->
  fst (show_method (VDict d) w) = Ret tt
  /\ stdout (trace (snd (show_method (VDict d) w))) = stdout (trace w) ++ method_defaults.
Proof.
  intros H1 H2 H3 H4. unfold show_method, bind, py_get, method_defaults.
  rewrite H1, H2, H3, H4. cbn. autorewrite with trace. rewrite <- !app_assoc.
  split; reflexivity.
Qed.

(** ** main *)

(** X16: when the health check fails [main] stops there: it exits with
    status 1 after that single request. *)
Theorem main_stops_at_failed_health_check (w : World) :
  healthy backend w = false ->
  fst (main backend w) = Raise (SystemExit 1)
  /\ io (trace (snd (main backend w))) = io (trace w) ++ [Sent health_request].
Proof.
  unfold healthy, next_reply, health_request, get_request. intros H.
  unfold main, try_except, requests_get, send, bind, print, sys_exit, raise, ret.
  cbn [fst snd clock trace]. autorewrite with trace in *.
  destruct (answer backend _ _) as [msg|r]; cbn [fst snd trace is_RequestException].
  - autorewrite with trace. split; reflexivity.
  - rewrite H. cbn [negb fst snd trace clock is_RequestException].
    autorewrite with trace. split; reflexivity.
Qed.

Lemma ready_io (w : World) :
  healthy backend w = true ->
  io (trace (ready backend w)) = io (trace w) ++ [Sent health_request; Sent list_request].
Proof.
  unfold healthy, next_reply, health_request, list_request. intros H.
  unfold ready, requests_get, send, bind, print.
  cbn [fst snd clock trace]. autorewrite with trace in *.
  destruct (answer backend _ _) as [msg|r]; [discriminate|].
  rewrite list_all_tests_io. cbn [trace]. autorewrite with trace.
  rewrite <- app_assoc. reflexivity.
Qed.

(** X17: [main] takes every handle that Python holds false (a missing or
    null [test_id], an empty string, a zero) for a failed creation: it says
    so and exits with status 1 after the health check, the listing and the
    creation, without waiting or deleting. *)
Theorem main_stops_without_handle (w : World) (handle : value) :
  healthy backend w = true ->
  fst (start_test backend (ready backend w)) = Ret handle ->
  truthy handle = false ->
  fst (main backend w) = Raise (SystemExit 1)
  /\ last_line (snd (main backend w)) = Some no_handle_line
  /\ io (trace (snd (main backend w)))
     = io (trace w) ++ [Sent health_request; Sent list_request;
                        Sent (post_test_request full_test_config)].
Proof.
  intros Hh Hs Ht. rewrite (main_healthy backend w Hh).
  rewrite (bind_ret _ _ _ handle Hs). rewrite Ht. cbn [negb].
  rewrite (bind_raise _ _ _ (SystemExit 1)) by reflexivity.
  cbn [fst snd bind print sys_exit raise trace].
  repeat apply conj.
  - reflexivity.
  - apply last_line_printed.
  - rewrite io_printed, start_test_io, ready_io by exact Hh.
    rewrite <- app_assoc. reflexivity.
Qed.

(** *** The exit status *)

Lemma raises_plainly_bind {A B} (m : M A) (k : A -> M B) :
  raises_plainly m -> (forall a, raises_plainly (k a)) -> raises_plainly (bind m k).
Proof.
  intros Hm Hk w. unfold bind. specialize (Hm w).
  destruct (m w) as [[a|e|] w']; cbn [fst] in *; [apply Hk|exact Hm|exact I].
Qed.

Lemma raises_plainly_try_except {A} (body : M A) (handler : exn -> M A) :
  raises_plainly body -> (forall e, raises_plainly (handler e)) ->
  raises_plainly (try_except body handler).
Proof.
  intros Hb Hh w. unfold try_except. specialize (Hb w).
  destruct (body w) as [[a|e|] w']; cbn [fst] in *; [exact I| |exact I].
  destruct (is_RequestException e); [apply Hh|exact Hb].
Qed.

Lemma raises_plainly_ret {A} (a : A) : raises_plainly (ret a).
Proof. intros w. exact I. Qed.

Lemma raises_plainly_sys_exit_1 {A} : raises_plainly (@sys_exit A 1).
Proof. intros w. reflexivity. Qed.

Lemma raises_plainly_print (line : fstring) : raises_plainly (print line).
Proof. intros w. exact I. Qed.

Lemma raises_plainly_send (req : request) : raises_plainly (send backend req).
Proof. intros w. unfold send. destruct (answer backend _ _); exact I. Qed.

Lemma raises_plainly_json (response : Response) : raises_plainly (json response).
Proof. intros w. unfold json. destruct (body response); exact I. Qed.

Lemma raises_plainly_py_get (obj : value) (key : string) (default : value) :
  raises_plainly (py_get obj key default).
Proof.
  intros w. unfold py_get. destruct obj; try exact I.
  destruct (lookup key d); exact I.
Qed.

Lemma raises_plainly_format_2f (v : value) : raises_plainly (format_2f v).
Proof.
  intros w. unfold format_2f. destruct v; try exact I.
  destruct (fits_double z); exact I.
Qed.

Lemma raises_plainly_py_iter (v : value) : raises_plainly (py_iter v).
Proof. intros w. destruct v; exact I. Qed.

Lemma raises_plainly_time_time : raises_plainly time_time.
Proof. intros w. exact I. Qed.

Lemma raises_plainly_time_sleep (secs : Z) : raises_plainly (time_sleep backend secs).
Proof. intros w. exact I. Qed.

Lemma raises_plainly_for_each {A} (l : list A) (body : A -> M unit) :
  (forall x, raises_plainly (body x)) -> raises_plainly (for_each l body).
Proof.
  intros Hb. induction l as [|x l IH]; cbn [for_each]; [apply raises_plainly_ret|].
  apply raises_plainly_bind; [apply Hb|intros _; exact IH].
Qed.

Ltac plainly_step :=
  first
    [ apply raises_plainly_ret | apply raises_plainly_sys_exit_1
    | apply raises_plainly_print | apply raises_plainly_send
    | apply raises_plainly_json | apply raises_plainly_py_get
    | apply raises_plainly_format_2f | apply raises_plainly_py_iter
    | apply raises_plainly_time_time | apply raises_plainly_time_sleep
    | apply raises_plainly_for_each; intros ?
    | match goal with
      | |- raises_plainly (if ?b then _ else _) => destruct b
      | |- raises_plainly (match ?x with Some _ => _ | None => _ end) => destruct x
      | |- raises_plainly (bind _ _) => apply raises_plainly_bind; [|intros ?]
      | |- raises_plainly (try_except _ _) => apply raises_plainly_try_except; [|intros ?]
      end ].

Lemma raises_plainly_get_test_status (test_id : value) :
  raises_plainly (get_test_status backend test_id).
Proof. unfold get_test_status, requests_get. repeat plainly_step. Qed.

Lemma raises_plainly_wait_loop (test_id : value) (start_time max_wait_time : Z)
    (fuel : nat) :
  raises_plainly (wait_loop backend fuel test_id start_time max_wait_time).
Proof.
  induction fuel as [|fuel IH]; cbn [wait_loop]; [intros w; exact I|].
  repeat first [apply raises_plainly_get_test_status | exact IH | plainly_step].
Qed.

Lemma raises_plainly_wait (test_id : value) (max_wait_time : Z) :
  raises_plainly (wait_for_test_completion backend test_id max_wait_time).
Proof.
  unfold wait_for_test_completion.
  repeat first [apply raises_plainly_wait_loop | plainly_step].
Qed.

Lemma raises_plainly_main : raises_plainly (main backend).
Proof.
  unfold main, list_all_tests, start_test, get_test_results, delete_test,
    show_results, show_overall, show_method, print_response,
    requests_get, requests_post, requests_delete.
  repeat first [apply raises_plainly_wait | plainly_step].
Qed.


(** *** The requests of a run *)

Lemma sends_at_most_le {A} (n n' : nat) (m : M A) :
  sends_at_most n m -> (n <= n')%nat -> sends_at_most n' m.
Proof. intros H Hn w. specialize (H w). lia. Qed.

Lemma sends_at_most_bind {A B} (a b : nat) (m : M A) (k : A -> M B) :
  sends_at_most a m -> (forall x, sends_at_most b (k x)) ->
  sends_at_most (a + b) (bind m k).
Proof.
  intros Hm Hk w. unfold bind. specialize (Hm w).
  destruct (m w) as [[x|e|] w']; cbn [fst snd] in *; [|lia|lia].
  specialize (Hk x w'). lia.
Qed.

Lemma sends_at_most_try_except {A} (a b : nat) (body : M A) (handler : exn -> M A) :
  sends_at_most a body -> (forall e, sends_at_most b (handler e)) ->
  sends_at_most (a + b) (try_except body handler).
Proof.
  intros Hb Hh w. unfold try_except. specialize (Hb w).
  destruct (body w) as [[x|e|] w']; cbn [fst snd] in *; [lia| |lia].
  destruct (is_RequestException e); cbn [snd]; [|lia].
  specialize (Hh e w'). lia.
Qed.

Lemma sends_at_most_if {A} (a b : nat) (c : bool) (m1 m2 : M A) :
  sends_at_most a m1 -> sends_at_most b m2 ->
  sends_at_most (Nat.max a b) (if c then m1 else m2).
Proof.
  intros H1 H2. destruct c.
  - apply (sends_at_most_le a); [exact H1|lia].
  - apply (sends_at_most_le b); [exact H2|lia].
Qed.

Lemma sends_nothing_ret {A} (a : A) : sends_at_most 0 (ret a).
Proof. intros w. cbn. lia. Qed.

Lemma sends_nothing_raise {A} (e : exn) : sends_at_most 0 (@raise A e).
Proof. intros w. cbn. lia. Qed.

Lemma sends_nothing_print (line : fstring) : sends_at_most 0 (print line).
Proof. intros w. cbn [print snd trace]. rewrite requests_sent_printed. lia. Qed.

Lemma sends_one_send (req : request) : sends_at_most 1 (send backend req).
Proof.
  intros w. unfold send. destruct (answer backend _ _); cbn [snd trace];
    rewrite requests_sent_sent; lia.
Qed.

Lemma sends_nothing_json (response : Response) : sends_at_most 0 (json response).
Proof. intros w. unfold json. destruct (body response); cbn; lia. Qed.

Lemma sends_nothing_py_get (obj : value) (key : string) (default : value) :
  sends_at_most 0 (py_get obj key default).
Proof.
  intros w. unfold py_get. destruct obj; cbn; try lia.
  destruct (lookup key d); cbn; lia.
Qed.

Lemma sends_nothing_format_2f (v : value) : sends_at_most 0 (format_2f v).
Proof.
  intros w. unfold format_2f. destruct v; cbn; try lia.
  destruct (fits_double z); cbn; lia.
Qed.

Lemma sends_nothing_py_iter (v : value) : sends_at_most 0 (py_iter v).
Proof. intros w. destruct v; cbn; lia. Qed.

Lemma sends_nothing_for_each {A} (l : list A) (body : A -> M unit) :
  (forall x, sends_at_most 0 (body x)) -> sends_at_most 0 (for_each l body).
Proof.
  intros Hb. induction l as [|x l IH]; cbn [for_each]; [apply sends_nothing_ret|].
  apply (sends_at_most_bind 0 0); [apply Hb|intros _; exact IH].
Qed.

Lemma requests_sent_io (t : list event) : requests_sent (io t) = requests_sent t.
Proof.
  unfold requests_sent, io. induction t as [|e t IH]; [reflexivity|].
  destruct e; cbn; rewrite ?IH; reflexivity.
Qed.

Lemma requests_sent_turns (req : request) (k : nat) : requests_sent (turns req k) = k.
Proof.
  induction k as [|k IH]; [reflexivity|].
  cbn [turns]. change (requests_sent (Sent req :: Slept 5 :: turns req k))
    with (S (requests_sent (turns req k))). now rewrite IH.
Qed.

Lemma requests_sent_polls (req : request) (k : nat) : requests_sent (polls req k) = k.
Proof.
  destruct k as [|k]; [reflexivity|].
  cbn [polls]. rewrite requests_sent_sent, requests_sent_turns. reflexivity.
Qed.

Lemma sends_at_most_wait (test_id : value) (max_wait_time : Z) :
  sends_at_most (max_polls max_wait_time)
    (wait_for_test_completion backend test_id max_wait_time).
Proof.
  intros w.
  set (w0 := snd (print (waiting_line test_id) w)).
  destruct (wait_loop_io test_id (clock w0) max_wait_time
              (Z.to_nat ((max_wait_time + 4) / 5)) w0) as [_ [k [Hk Hio]]].
  { pose proof (ceil5_bounds max_wait_time). unfold seconds. lia. }
  destruct (wait_after_loop test_id max_wait_time w) as [Hsame _].
  fold w0 in Hsame. unfold poll_budget in Hsame.
  change (clock w) with (clock w0) in Hsame.
  rewrite <- Hsame in Hio.
  assert (Hw0 : requests_sent (trace w0) = requests_sent (trace w)).
  { subst w0. cbn [snd print trace]. apply requests_sent_printed. }
  rewrite <- (requests_sent_io (trace (snd _))), <- Hw0, <- (requests_sent_io (trace w0)).
  unfold max_polls.
  destruct Hio as [Hio|[_ Hio]]; rewrite Hio, requests_sent_app,
    ?requests_sent_turns, ?requests_sent_polls; lia.
Qed.

Ltac sending_step :=
  first
    [ eapply sends_nothing_ret | eapply sends_nothing_raise
    | eapply sends_nothing_print | eapply sends_one_send
    | eapply sends_nothing_json | eapply sends_nothing_py_get
    | eapply sends_nothing_format_2f | eapply sends_nothing_py_iter
    | eapply sends_nothing_for_each; intros ?
    | match goal with
      | |- sends_at_most _ (if _ then _ else _) => eapply sends_at_most_if
      | |- sends_at_most _ (bind _ _) => eapply sends_at_most_bind; [|intros ?]
      | |- sends_at_most _ (try_except _ _) => eapply sends_at_most_try_except; [|intros ?]
      end ].

Lemma sends_nothing_show_method (result : value) : sends_at_most 0 (show_method result).
Proof.
  eapply sends_at_most_le; [unfold show_method; repeat sending_step|].
  vm_compute. lia.
Qed.


End Operations.

(** ** The further properties at work on the scenarios *)


Lemma unparsable_body_is_a_network_error_witness :
  fst (get_test_status babbling (VStr "abc") boot) = Ret VNone
  /\ last_line (snd (list_all_tests babbling boot)) = Some (network_error JSONDecodeError).
Proof.
  pose proof (unparsable_body_is_a_network_error babbling (VStr "abc") boot
                {| status_code := 200; headers := []; body := None |}
                (fun _ => eq_refl) eq_refl eq_refl) as H.
  split; [apply H|apply H].
Defined.

Lemma non_object_body_raises_witness :
  fst (get_test_status busy (VStr "abc") boot) = Raise AttributeError
  /\ fst (list_all_tests busy boot) = Ret (VStr "busy").
Proof.
  pose proof (non_object_body_raises busy (VStr "abc") boot
                {| status_code := 200; headers := []; body := Some (VStr "busy") |}
                (VStr "busy") (fun _ => eq_refl) eq_refl eq_refl eq_refl) as H.
  split; apply H.
Defined.

Lemma start_tests_agree_witness :
  fst (start_simple_test echo_abc boot) = fst (start_test echo_abc boot).
Proof. apply (start_tests_agree echo_abc boot). reflexivity. Defined.

Lemma start_test_without_test_id_witness :
  fst (start_test no_status boot) = Ret VNone
  /\ fst (start_simple_test no_status boot) = Ret VNone.
Proof.
  pose proof (start_test_without_test_id no_status boot
                {| status_code := 200; headers := []; body := Some (VDict []) |} []
                (fun _ => eq_refl) eq_refl eq_refl eq_refl) as H.
  split; apply H.
Defined.

Lemma results_iff_status_completed_witness :
  fst (get_test_status completing (VStr "abc") (after_turn completing (VStr "abc") boot))
  = Ret (VStr "completed")
  <-> exists d,
        fst (get_test_results completing (VStr "abc")
               (after_turn completing (VStr "abc") boot)) = Ret (VDict d).
Proof.
  apply (results_iff_status_completed completing (VStr "abc")). reflexivity.
Defined.

Lemma null_status_stops_the_wait_witness :
  fst (wait_for_test_completion null_status_field (VStr "abc") 300 boot) = Ret false
  /\ last_line (snd (wait_for_test_completion null_status_field (VStr "abc") 300 boot))
     = Some (no_status_line (VStr "abc"))
  /\ io (trace (snd (wait_for_test_completion null_status_field (VStr "abc") 300 boot)))
     = io (trace boot) ++ [Sent (get_request (test_url (VStr "abc")))].
Proof.
  apply (null_status_stops_the_wait null_status_field (VStr "abc") 300 boot
           {| status_code := 200; headers := []; body := Some (VDict [("status", VNone)]) |}
           [("status", VNone)]); reflexivity.
Defined.

Lemma wait_without_budget_witness :
  wait_for_test_completion completing (VStr "abc") 0 boot
  = (Ret false,
     snd (print (timeout_line (VStr "abc"))
            (snd (print (waiting_line (VStr "abc")) boot)))).
Proof. apply (wait_without_budget completing (VStr "abc") 0 boot). discriminate. Defined.

Lemma wait_true_only_when_completed_witness :
  exists k,
    fst (get_test_status completing (VStr "abc")
           (poll_world completing (VStr "abc") k
              (snd (print (waiting_line (VStr "abc")) boot))))
    = Ret (VStr "completed")
    /\ snd (wait_for_test_completion completing (VStr "abc") 300 boot)
       = snd (print (verdict_line (VStr "abc") (VStr "completed"))
                (snd (get_test_status completing (VStr "abc")
                        (poll_world completing (VStr "abc") k
                           (snd (print (waiting_line (VStr "abc")) boot)))))).
Proof.
  apply (wait_true_only_when_completed completing (VStr "abc") 300 boot). reflexivity.
Defined.

Lemma wait_raises_what_a_poll_raises_witness :
  fst (wait_for_test_completion busy (VStr "abc") 300 boot) = Raise AttributeError.
Proof.
  rewrite (wait_raises_what_a_poll_raises busy (VStr "abc") 300 boot 0 AttributeError).
  - reflexivity.
  - intros i Hi. exfalso. lia.
  - reflexivity.
  - reflexivity.
Defined.

Lemma show_results_without_details_witness :
  show_results (status_body "completed") boot = (Ret tt, snd (print results_line boot)).
Proof.
  apply (show_results_without_details [("status", VStr "completed")] boot); reflexivity.
Defined.

Lemma show_overall_bad_rate_witness :
  stdout (trace (snd (show_overall (VDict [("overall_rps", VStr "fast")]) boot)))
  = overall_counts [("overall_rps", VStr "fast")].
Proof.
  apply (show_overall_bad_rate [("overall_rps", VStr "fast")] boot (VStr "fast"));
    reflexivity.
Defined.

Lemma show_method_defaults_witness :
  fst (show_method (VDict []) boot) = Ret tt
  /\ stdout (trace (snd (show_method (VDict []) boot))) = method_defaults.
Proof. apply (show_method_defaults [] boot); reflexivity. Defined.

Lemma main_stops_at_failed_health_check_witness :
  fst (main unreachable boot) = Raise (SystemExit 1)
  /\ io (trace (snd (main unreachable boot))) = [Sent health_request].
Proof. apply (main_stops_at_failed_health_check unreachable boot). reflexivity. Defined.

Lemma main_stops_without_handle_witness :
  fst (main forgetful boot) = Raise (SystemExit 1)
  /\ last_line (snd (main forgetful boot)) = Some no_handle_line
  /\ io (trace (snd (main forgetful boot)))
     = [Sent health_request; Sent list_request; Sent (post_test_request full_test_config)].
Proof.
  apply (main_stops_without_handle forgetful boot VNone); reflexivity.
Defined.
